(** * AnemiaNet-ML dataset utilities: a shallow embedding

    The three scripts under [dataset/All Stata]:
    - [convert_dta_to_csv.py]   (module [Converter]),
    - [extract_column_names.py] (module [Extractor]),
    - [remove_null_columns.py]  (module [Pruner]).

    The scripts are straight-line Python over [pathlib] and [pandas].  The
    parts of those two libraries the scripts call are modelled in [PathLib]
    and [Pandas]; the file system and the console are an explicit state
    ([World]) threaded through a small state-and-exception monad. *)

From Stdlib Require Import List String Ascii Arith Lia Bool Permutation.
From Stdlib Require Import DecimalString DecimalNat.
From stdpp Require Import base option list gmap strings.

Local Open Scope string_scope.
Local Open Scope list_scope.
Local Open Scope nat_scope.

(** ** Python results: a value or a raised exception *)

Inductive exn : Type :=
| ValueError
| KeyError
| PermissionError
| FileNotFoundError
| OtherOSError
| EmptyDataError
| ParserError
| StataError
| RenameBound.  (* the bound of the reader's renaming loop; never raised, see [Pandas.mangle_total] *)

#[global] Instance exn_eq_dec : EqDecision exn.
Proof. solve_decision. Defined.

Inductive result (A : Type) : Type :=
| Ok (a : A)
| Raise (e : exn).
Arguments Ok {A} a.
Arguments Raise {A} e.

Definition rbind {A B} (r : result A) (k : A -> result B) : result B :=
  match r with
  | Ok a => k a
  | Raise e => Raise e
  end.

(** Decimal rendering of a natural number, as [str(n)] and f-strings do. *)
Definition show_nat (n : nat) : string := NilEmpty.string_of_uint (Nat.to_uint n).

(** ** pathlib

    The pure path operations the scripts use, as CPython's [pathlib]
    defines them. *)

Module PathLib.

(** A path is the list of its components; the last one is the file name. *)
Abbreviation path := (list string).

Definition name (p : path) : string := List.last p "".
Definition parent (p : path) : path := removelast p.
(** [parent / child] *)
Definition joinpath (dir : path) (child : string) : path := dir ++ [child].

(** [str.rfind('.')] *)
Fixpoint rfind_dot (s : string) : option nat :=
  match s with
  | EmptyString => None
  | String a s' =>
      match rfind_dot s' with
      | Some i => Some (S i)
      | None => if Ascii.eqb a "."%char then Some 0 else None
      end
  end.

(** [PurePath.suffix]: [i = name.rfind('.')]; [name[i:]] if
    [0 < i < len(name) - 1], else the empty string. *)
Definition suffix_of (nm : string) : string :=
  match rfind_dot nm with
  | Some i =>
      if (0 <? i) && (i <? String.length nm - 1)
      then substring i (String.length nm - i) nm
      else ""
  | None => ""
  end.

(** [PurePath.stem]: [name[:i]] under the same condition, else [name]. *)
Definition stem_of (nm : string) : string :=
  match rfind_dot nm with
  | Some i =>
      if (0 <? i) && (i <? String.length nm - 1)
      then substring 0 i nm
      else nm
  | None => nm
  end.

Definition suffix (p : path) : string := suffix_of (name p).
Definition stem (p : path) : string := stem_of (name p).

(** [PurePath.with_suffix(suffix)] for a well-formed new suffix (the scripts
    pass the literals ['.csv'] and ['.csv.backup']): [ValueError] on an empty
    name; the new suffix is appended when there is no old one and replaces
    the old one otherwise. *)
Definition with_suffix (p : path) (new_suffix : string) : result path :=
  let nm := name p in
  if decide (nm = "") then Raise ValueError
  else
    let old := suffix_of nm in
    let nm' :=
      if decide (old = "") then nm +:+ new_suffix
      else substring 0 (String.length nm - String.length old) nm +:+ new_suffix in
    Ok (joinpath (parent p) nm').

(** [dta_file.relative_to(input_path)]: the components after the prefix;
    [ValueError] when [base] is not a prefix. *)
Fixpoint relative_to (p base : path) : result path :=
  match base, p with
  | [], _ => Ok p
  | b :: base', c :: p' => if decide (b = c) then relative_to p' base' else Raise ValueError
  | _ :: _, [] => Raise ValueError
  end.

(** Letter case folding used by case-insensitive path flavours. *)
Definition lower_ascii (c : ascii) : ascii :=
  let n := nat_of_ascii c in
  if (65 <=? n) && (n <=? 90) then ascii_of_nat (n + 32) else c.

Fixpoint lower (s : string) : string :=
  match s with
  | EmptyString => EmptyString
  | String c s' => String (lower_ascii c) (lower s')
  end.

Definition ends_with (suf s : string) : bool :=
  (String.length suf <=? String.length s) &&
  bool_decide (substring (String.length s - String.length suf) (String.length suf) s = suf).

(** The glob pattern ["*" ++ ext] against a file name: [*] matches any run of
    characters (the empty one and a leading dot included), so the name
    matches when it ends with [ext].  A case-insensitive flavour (Windows
    paths) folds both sides first. *)
Definition matches_ext (case_sensitive : bool) (ext nm : string) : bool :=
  if case_sensitive then ends_with ext nm
  else ends_with (lower ext) (lower nm).

(** [is_under root p]: [p] lies strictly below the directory [root]. *)
Fixpoint is_under (root p : path) : bool :=
  match root, p with
  | [], _ :: _ => true
  | [], [] => false
  | r :: root', c :: p' => bool_decide (r = c) && is_under root' p'
  | _ :: _, [] => false
  end.

End PathLib.

(** ** pandas

    The scripts call pandas, whose code is not part of the repository.  The
    calls they make are modelled by what pandas does with the arguments the
    scripts pass (pandas 2.x): [read_csv] with its default header handling
    and missing-value strings, [isnull], [==], [sum], label indexing of a
    series, [drop] and [to_csv].  Type inference and number formatting are
    left out: they change neither which cells are the marker nor which are
    the empty string. *)

Module Pandas.

(** A cell of a loaded table: the missing-value marker ([NaN], [None]) or a
    value.  A value is kept by its text (a number as its rendering), which is
    all the scripts look at: [isnull()] asks for the marker, [== ''] for the
    empty string. *)
Inductive cell : Type :=
| NaN
| Str (s : string).

#[global] Instance cell_eq_dec : EqDecision cell.
Proof. solve_decision. Defined.

(** The element test of [df.isnull()]. *)
Definition isnull (c : cell) : bool :=
  match c with
  | NaN => true
  | Str _ => false
  end.

(** The element test of [df == s]: the marker compares unequal to everything. *)
Definition eq_str (s : string) (c : cell) : bool :=
  match c with
  | NaN => false
  | Str t => bool_decide (t = s)
  end.

(** A [DataFrame]: its row count ([len(df)], kept by the index even when no
    column is left) and its columns in order, each a label with its cells.
    Labels may repeat in a frame built by hand; [read_csv] below never
    produces one with repeats. *)
Record DataFrame : Type := mkDataFrame {
  nrows : nat;
  cols : list (string * list cell)
}.

(** [df.columns] *)
Definition columns (df : DataFrame) : list string := map fst (cols df).
(** [len(df)] *)
Definition len (df : DataFrame) : nat := nrows df.

(** Every column has one cell per row. *)
Definition rectangular (df : DataFrame) : Prop :=
  Forall (fun kv => length (snd kv) = nrows df) (cols df).

(** A [Series] of counts indexed by the column labels, the result of
    [df.isnull().sum()] and of [(df == '').sum()]. *)
Abbreviation Series := (list (string * nat)).

Definition count_true (f : cell -> bool) (cs : list cell) : nat :=
  length (List.filter f cs).

Definition isnull_sum (df : DataFrame) : Series :=
  map (fun kv => (fst kv, count_true isnull (snd kv))) (cols df).

Definition eq_sum (s : string) (df : DataFrame) : Series :=
  map (fun kv => (fst kv, count_true (eq_str s) (snd kv))) (cols df).

(** [series[label]]: the scalar when the label occurs once, the sub-series
    of all matches when it repeats, [KeyError] when it is absent. *)
Inductive item : Type :=
| Scalar (n : nat)
| SubSeries (l : list nat).

Definition getitem (s : Series) (label : string) : result item :=
  match List.filter (fun kv => bool_decide (fst kv = label)) s with
  | [] => Raise KeyError
  | [kv] => Ok (Scalar (snd kv))
  | l => Ok (SubSeries (map snd l))
  end.

(** [x == n]: a [bool] for a scalar, an element-wise series otherwise. *)
Inductive cmp : Type :=
| CBool (b : bool)
| CSeries (l : list bool).

Definition item_eq (x : item) (n : nat) : cmp :=
  match x with
  | Scalar k => CBool (k =? n)
  | SubSeries l => CSeries (map (fun k => k =? n) l)
  end.

(** [bool(x)], as [if] and [or] call it: a series has no truth value
    ("The truth value of a Series is ambiguous"). *)
Definition truth (c : cmp) : result bool :=
  match c with
  | CBool b => Ok b
  | CSeries _ => Raise ValueError
  end.

(** [df.drop(columns=labels)]: every column carrying one of the labels goes;
    [KeyError] when a label is not a column. *)
Definition drop (df : DataFrame) (labels : list string) : result DataFrame :=
  if forallb (fun l => bool_decide (l ∈ columns df)) labels
  then Ok (mkDataFrame (nrows df)
             (List.filter (fun kv => negb (bool_decide (fst kv ∈ labels))) (cols df)))
  else Raise KeyError.

(** *** Reading and writing delimited text

    A CSV file is kept by its tokenised fields: the header line and the data
    lines, the fields the reader aligns with the header. *)
Record csv_text : Type := mkCsv {
  header : list string;
  lines : list (list string)
}.

(** The reader's default names for an empty header field. *)
Definition unnamed (i : nat) : string := "Unnamed: " +:+ show_nat i.

Definition fill_unnamed (fields : list string) : list string :=
  imap (fun i s => if decide (s = "") then unnamed i else s) fields.

Definition unnamed_col_indices (fields : list string) : list nat :=
  List.filter (fun i => bool_decide (fields !! i = Some "")) (seq 0 (length fields)).

(** Named columns first, unnamed ones last ("regular columns are used before
    unnamed ones to keep given names and mangle unnamed columns"). *)
Definition col_loop_order (fields : list string) : list nat :=
  List.filter (fun i => negb (bool_decide (fields !! i = Some ""))) (seq 0 (length fields))
  ++ unnamed_col_indices fields.

(** [counts.get(col, 0)] *)
Definition counts_get (counts : gmap string nat) (col : string) : nat :=
  default 0 (counts !! col).

(** The renaming loop for a name already taken:
<<
    while cur_count > 0:
        counts[old_col] = cur_count + 1
        col = f"{old_col}.{cur_count}"
        if col in this_header: cur_count += 1
        else: cur_count = counts.get(col, 0)
>>
    entered with [cur_count > 0]; [fuel] bounds the iterations. *)
Fixpoint mangle_while (fuel : nat) (old_col : string) (cur_count : nat)
    (counts : gmap string nat) (this_header : list string)
    : option (string * nat * gmap string nat) :=
  match fuel with
  | 0 => None
  | S fuel' =>
      let counts := <[old_col := cur_count + 1]> counts in
      let col := old_col +:+ "." +:+ show_nat cur_count in
      let cur_count :=
        if bool_decide (col ∈ this_header) then cur_count + 1
        else counts_get counts col in
      if 0 <? cur_count
      then mangle_while fuel' old_col cur_count counts this_header
      else Some (col, cur_count, counts)
  end.

(** One turn of the loop over [col_loop_order]. *)
Definition mangle_step (st : list string * gmap string nat) (i : nat)
    : option (list string * gmap string nat) :=
  let '(this_header, counts) := st in
  match this_header !! i with
  | None => None
  | Some col =>
      let cur_count := counts_get counts col in
      match
        (if 0 <? cur_count
         then mangle_while (S (length this_header)) col cur_count counts this_header
         else Some (col, cur_count, counts))
      with
      | None => None
      | Some (col, cur_count, counts) =>
          Some (<[i := col]> this_header, <[col := cur_count + 1]> counts)
      end
  end.

Fixpoint mangle_loop (order : list nat) (st : list string * gmap string nat)
    : option (list string * gmap string nat) :=
  match order with
  | [] => Some st
  | i :: order' =>
      match mangle_step st i with
      | None => None
      | Some st' => mangle_loop order' st'
      end
  end.

(** The column labels the reader gives a header: empty names become
    [Unnamed: i], a repeated name [X] becomes [X.1], [X.2], ... skipping
    names the header already holds. *)
Definition mangle_dupe_cols (fields : list string) : option (list string) :=
  match mangle_loop (col_loop_order fields) (fill_unnamed fields, ∅) with
  | None => None
  | Some (names, _) => Some names
  end.

(** The reader's default missing-value strings ([keep_default_na=True]). *)
Definition STR_NA_VALUES : list string :=
  [""; "#N/A"; "#N/A N/A"; "#NA"; "-1.#IND"; "-1.#QNAN"; "-NaN"; "-nan";
   "1.#IND"; "1.#QNAN"; "<NA>"; "N/A"; "NA"; "NULL"; "NaN"; "None"; "n/a";
   "nan"; "null"].

Definition parse_field (s : string) : cell :=
  if bool_decide (s ∈ STR_NA_VALUES) then NaN else Str s.

(** [to_csv]'s rendering with the default [na_rep='']. *)
Definition render (c : cell) : string :=
  match c with
  | NaN => ""
  | Str s => s
  end.

(** The frame built from the labels and the data lines; a line shorter than
    the header is filled with the marker. *)
Definition frame_of (labels : list string) (ls : list (list string)) : DataFrame :=
  mkDataFrame (length ls)
    (imap (fun j label => (label, map (fun row => parse_field (default "" (row !! j))) ls)) labels).

(** [pd.read_csv(path, low_memory=False)] on the file's text: no header field
    is [EmptyDataError] ("No columns to parse from file"), a data line with
    more fields than the header a tokenizing [ParserError]. *)
Definition read_csv (t : csv_text) : result DataFrame :=
  match header t with
  | [] => Raise EmptyDataError
  | _ :: _ =>
      match mangle_dupe_cols (header t) with
      | None => Raise RenameBound
      | Some labels =>
          if forallb (fun row => length row <=? length labels) (lines t)
          then Ok (frame_of labels (lines t))
          else Raise ParserError
      end
  end.

(** [pd.read_csv(path, nrows=0)]: the header alone makes the (empty) frame. *)
Definition read_csv_header (t : csv_text) : result DataFrame :=
  match header t with
  | [] => Raise EmptyDataError
  | _ :: _ =>
      match mangle_dupe_cols (header t) with
      | None => Raise RenameBound
      | Some labels => Ok (frame_of labels [])
      end
  end.

(** [df.to_csv(path, index=False, encoding='utf-8')]: the labels as the
    header line, then one line per row. *)
Definition to_csv (df : DataFrame) : csv_text :=
  mkCsv (columns df)
    (map (fun i => map (fun kv => render (default NaN (snd kv !! i))) (cols df))
       (seq 0 (nrows df))).

End Pandas.

(** ** The file system and the console *)

Module OS.
Import PathLib Pandas.

(** What a file holds: delimited text, a Stata table (kept as the frame
    [read_stata] yields), the text lines of a manifest, or anything else. *)
Inductive content : Type :=
| CsvFile (t : csv_text)
| DtaFile (df : DataFrame)
| TextFile (s : string)
| Junk.

(** Console lines.  Numbers the scripts print are carried as they are; the
    sizes, percentages and durations (floating point) are left out. *)
Inductive msg : Type :=
| MsgFileNotFound (p : path)
| MsgProcessing (nm : string)
| MsgOriginal (rows ncols : nat)
| MsgRemoving (removed : nat)
| MsgLockedSavedAs (nm : string)
| MsgRemoved (removed remaining : nat)
| MsgNoNullColumns
| MsgNoCsvFound (folder : path)
| MsgFoundCsv (n : nat)
| MsgPruneFailed (nm : string) (e : exn)
| MsgPruneSummary (successful failed total_removed total_original : nat)
| MsgNoDtaFound (folder : path)
| MsgFoundDta (n : nat)
| MsgConverted (nm : string) (rows ncols : nat)
| MsgConvertFailed (nm : string) (e : exn)
| MsgConvertSummary (successful failed total : nat)
| MsgReadingColumns (nm : string)
| MsgExtracted (n : nat)
| MsgSavedTo (p : path).

(** The state the scripts act on.  [listing] is what a directory walk yields,
    in its order; an entry with no file behind it is a dangling link.
    [wfail] holds the paths at which opening for writing raises (a lock held
    by another process is [PermissionError]). *)
Record World : Type := mkWorld {
  files : gmap path content;
  listing : list path;
  wfail : gmap path exn;
  case_sensitive : bool;
  stdout : list msg
}.

Definition set_files (w : World) (fs : gmap path content) : World :=
  mkWorld fs (listing w) (wfail w) (case_sensitive w) (stdout w).

Definition add_listing (w : World) (p : path) : World :=
  mkWorld (files w) (if bool_decide (p ∈ listing w) then listing w else listing w ++ [p])
    (wfail w) (case_sensitive w) (stdout w).

(** A computation: state in, state and value-or-exception out. *)
Definition M (A : Type) : Type := World -> World * result A.

Definition ret {A} (a : A) : M A := fun w => (w, Ok a).
Definition raise {A} (e : exn) : M A := fun w => (w, Raise e).
Definition bind {A B} (m : M A) (k : A -> M B) : M B :=
  fun w =>
    match m w with
    | (w', Ok a) => k a w'
    | (w', Raise e) => (w', Raise e)
    end.
Definition lift {A} (r : result A) : M A := fun w => (w, r).

(** [try: body  except E: handler], [catches] telling which exceptions [E] covers. *)
Definition try_except {A} (body : M A) (catches : exn -> bool) (handler : exn -> M A) : M A :=
  fun w =>
    match body w with
    | (w', Ok a) => (w', Ok a)
    | (w', Raise e) => if catches e then handler e w' else (w', Raise e)
    end.

(** [except Exception] *)
Definition any_exception (e : exn) : bool := true.
(** [except PermissionError] *)
Definition is_permission_error (e : exn) : bool :=
  match e with
  | PermissionError => true
  | _ => false
  end.

Declare Scope os_scope.
Delimit Scope os_scope with os.
Notation "x <- m ;; k" := (bind m (fun x => k))
  (at level 100, m at next level, right associativity) : os_scope.
Notation "m ;;; k" := (bind m (fun _ => k))
  (at level 100, right associativity) : os_scope.
Local Open Scope os_scope.

Definition print (m : msg) : M unit :=
  fun w => (mkWorld (files w) (listing w) (wfail w) (case_sensitive w) (stdout w ++ [m]), Ok tt).

(** [path.exists()] *)
Definition path_exists (p : path) : M bool :=
  fun w => (w, Ok (bool_decide (is_Some (files w !! p)))).

(** [path.stat()]: only its failure on a missing file matters here. *)
Definition stat (p : path) : M unit :=
  fun w => (w, if bool_decide (is_Some (files w !! p)) then Ok tt else Raise FileNotFoundError).

(** Opening [p] for writing and storing [c]; a refused open leaves every file as it was. *)
Definition write_file (p : path) (c : content) : M unit :=
  fun w =>
    match wfail w !! p with
    | Some e => (w, Raise e)
    | None => (add_listing (set_files w (<[p := c]> (files w))) p, Ok tt)
    end.

Definition pd_read_csv (p : path) : M DataFrame :=
  fun w =>
    match files w !! p with
    | None => (w, Raise FileNotFoundError)
    | Some (CsvFile t) => (w, read_csv t)
    | Some _ => (w, Raise ParserError)
    end.

Definition pd_read_csv_header (p : path) : M DataFrame :=
  fun w =>
    match files w !! p with
    | None => (w, Raise FileNotFoundError)
    | Some (CsvFile t) => (w, read_csv_header t)
    | Some _ => (w, Raise ParserError)
    end.

Definition pd_read_stata (p : path) : M DataFrame :=
  fun w =>
    match files w !! p with
    | None => (w, Raise FileNotFoundError)
    | Some (DtaFile df) => (w, Ok df)
    | Some _ => (w, Raise StataError)
    end.

Definition df_to_csv (df : DataFrame) (p : path) : M unit :=
  write_file p (CsvFile (to_csv df)).

(** [src.rename(dst)] *)
Definition rename (src dst : path) : M unit :=
  fun w =>
    match files w !! src with
    | None => (w, Raise FileNotFoundError)
    | Some c =>
        match wfail w !! dst with
        | Some e => (w, Raise e)
        | None => (add_listing (set_files w (<[dst := c]> (delete src (files w)))) dst, Ok tt)
        end
    end.

(** [dir.mkdir(parents=True, exist_ok=True)]: directories are implicit in the
    paths; only a refusal is kept. *)
Definition mkdir_parents (dir : path) : M unit :=
  fun w =>
    match wfail w !! dir with
    | Some e => (w, Raise e)
    | None => (w, Ok tt)
    end.

(** [list(root.rglob("*" + ext))]: every listed entry below [root] whose name matches. *)
Definition rglob (root : path) (ext : string) : M (list path) :=
  fun w =>
    (w, Ok (List.filter
              (fun p => is_under root p && matches_ext (case_sensitive w) ext (name p))
              (listing w))).

(** [list(root.glob("*" + ext))]: the immediate children only. *)
Definition glob (root : path) (ext : string) : M (list path) :=
  fun w =>
    (w, Ok (List.filter
              (fun p => bool_decide (parent p = root) && bool_decide (p <> [])
                        && matches_ext (case_sensitive w) ext (name p))
              (listing w))).

End OS.

(** ** remove_null_columns.py *)

Module Pruner.
Import PathLib Pandas OS.
Local Open Scope os_scope.

(** The loop of [remove_null_columns] over [df.columns]:
<<
    for col in df.columns:
        if null_counts[col] == len(df) or empty_string_counts[col] == len(df):
            cols_to_drop.append(col)
>>
    [or] asks the truth value of its left operand and evaluates the right one
    only when that is false. *)
Fixpoint scan_columns (n : nat) (null_counts empty_string_counts : Series)
    (todo : list string) (cols_to_drop : list string) : result (list string) :=
  match todo with
  | [] => Ok cols_to_drop
  | col :: todo' =>
      rbind (getitem null_counts col) (fun a =>
      rbind (truth (item_eq a n)) (fun ta =>
      rbind (if ta then Ok true
             else rbind (getitem empty_string_counts col) (fun b => truth (item_eq b n)))
        (fun t =>
           scan_columns n null_counts empty_string_counts todo'
             (if t then cols_to_drop ++ [col] else cols_to_drop))))
  end.

(** Lines 50-57: the labels to drop, or the exception the evaluation raises. *)
Definition cols_to_drop (df : DataFrame) : result (list string) :=
  let null_counts := isnull_sum df in
  let empty_string_counts := eq_sum "" df in
  scan_columns (len df) null_counts empty_string_counts (columns df) [].

(** The two whole-column predicates, on the cells of one column. *)
Definition all_null (cs : list cell) : bool := forallb isnull cs.
Definition all_empty_string (cs : list cell) : bool := forallb (eq_str "") cs.
Definition qualifies (cs : list cell) : bool := all_null cs || all_empty_string cs.

(** [parent / f"{stem}_cleaned.csv"] *)
Definition cleaned_path (csv_path : path) : path :=
  joinpath (parent csv_path) (stem csv_path +:+ "_cleaned.csv").

(** [remove_null_columns(csv_file, inplace)]: [None], or the triple
    [(original_cols, remaining_cols, removed_cols)]. *)
Definition remove_null_columns (csv_path : path) (inplace : bool)
    : M (option (nat * nat * nat)) :=
  found <- path_exists csv_path ;;
  if negb found then
    print (MsgFileNotFound csv_path) ;;;
    ret None
  else
    stat csv_path ;;;
    print (MsgProcessing (name csv_path)) ;;;
    df <- pd_read_csv csv_path ;;
    let original_cols := length (columns df) in
    let original_rows := len df in
    print (MsgOriginal original_rows original_cols) ;;;
    to_drop <- lift (cols_to_drop df) ;;
    match to_drop with
    | _ :: _ =>
        df_cleaned <- lift (drop df to_drop) ;;
        let remaining_cols := length (columns df_cleaned) in
        let removed_cols := length to_drop in
        print (MsgRemoving removed_cols) ;;;
        final_path <-
          (if inplace then
             try_except
               (df_to_csv df_cleaned csv_path ;;; ret csv_path)
               is_permission_error
               (fun _ =>
                  let cleaned := cleaned_path csv_path in
                  df_to_csv df_cleaned cleaned ;;;
                  print (MsgLockedSavedAs (name cleaned)) ;;;
                  ret cleaned)
           else
             backup_path <- lift (with_suffix csv_path ".csv.backup") ;;
             rename csv_path backup_path ;;;
             df_to_csv df_cleaned csv_path ;;;
             ret csv_path) ;;
        stat final_path ;;;
        print (MsgRemoved removed_cols remaining_cols) ;;;
        ret (Some (original_cols, remaining_cols, removed_cols))
    | [] =>
        print MsgNoNullColumns ;;;
        ret (Some (original_cols, original_cols, 0))
    end.

(** The batch counters of [process_folder]. *)
Record counters : Type := mkCounters {
  total_removed : nat;
  total_original : nat;
  successful : nat;
  failed : nat
}.

(** One turn of the loop of [process_folder]. *)
Definition process_one (acc : counters) (csv_file : path) : M counters :=
  try_except
    (res <- remove_null_columns csv_file true ;;
     match res with
     | Some (original_cols, remaining_cols, removed_cols) =>
         ret (mkCounters (total_removed acc + removed_cols)
                (total_original acc + original_cols)
                (successful acc + 1) (failed acc))
     | None => ret acc
     end)
    any_exception
    (fun e =>
       print (MsgPruneFailed (name csv_file) e) ;;;
       ret (mkCounters (total_removed acc) (total_original acc)
              (successful acc) (failed acc + 1))).

Fixpoint process_files (csv_files : list path) (acc : counters) : M counters :=
  match csv_files with
  | [] => ret acc
  | csv_file :: rest =>
      acc' <- process_one acc csv_file ;;
      process_files rest acc'
  end.

(** [process_folder(folder_path, recursive)] *)
Definition process_folder (folder : path) (recursive : bool) : M unit :=
  csv_files <- (if recursive then rglob folder ".csv" else glob folder ".csv") ;;
  match csv_files with
  | [] => print (MsgNoCsvFound folder)
  | _ :: _ =>
      print (MsgFoundCsv (length csv_files)) ;;;
      acc <- process_files csv_files (mkCounters 0 0 0 0) ;;
      print (MsgPruneSummary (successful acc) (failed acc)
               (total_removed acc) (total_original acc))
  end.

End Pruner.

(** ** convert_dta_to_csv.py *)

Module Converter.
Import PathLib Pandas OS.
Local Open Scope os_scope.

(** The body of the [try] for one file; returns the CSV path written. *)
Definition convert_one (input_path : path) (output_folder : option path) (dta_file : path)
    : M path :=
  stat dta_file ;;;
  print (MsgProcessing (name dta_file)) ;;;
  df <- pd_read_stata dta_file ;;
  output_path <-
    (match output_folder with
     | Some out =>
         rel <- lift (relative_to dta_file input_path) ;;
         let output_path := out ++ rel in
         mkdir_parents (parent output_path) ;;;
         ret output_path
     | None => ret (joinpath (parent dta_file) (stem dta_file))
     end) ;;
  csv_file <- lift (with_suffix output_path ".csv") ;;
  df_to_csv df csv_file ;;;
  stat csv_file ;;;
  print (MsgConverted (name csv_file) (len df) (length (columns df))) ;;;
  ret csv_file.

(** One turn of the loop: [(successful, failed)] before and after. *)
Definition convert_step (input_path : path) (output_folder : option path)
    (acc : nat * nat) (dta_file : path) : M (nat * nat) :=
  try_except
    (convert_one input_path output_folder dta_file ;;;
     ret (fst acc + 1, snd acc))
    any_exception
    (fun e =>
       print (MsgConvertFailed (name dta_file) e) ;;;
       ret (fst acc, snd acc + 1)).

Fixpoint convert_files (input_path : path) (output_folder : option path)
    (dta_files : list path) (acc : nat * nat) : M (nat * nat) :=
  match dta_files with
  | [] => ret acc
  | dta_file :: rest =>
      acc' <- convert_step input_path output_folder acc dta_file ;;
      convert_files input_path output_folder rest acc'
  end.

(** [list(input_path.rglob("*.dta")) + list(input_path.rglob("*.DTA"))] *)
Definition discover (input_path : path) : M (list path) :=
  lower_case <- rglob input_path ".dta" ;;
  upper_case <- rglob input_path ".DTA" ;;
  ret (lower_case ++ upper_case).

(** [convert_dta_to_csv(input_folder, output_folder)]; [output_folder] is
    [None] for a missing or empty argument. *)
Definition convert_dta_to_csv (input_path : path) (output_folder : option path) : M unit :=
  dta_files <- discover input_path ;;
  match dta_files with
  | [] => print (MsgNoDtaFound input_path)
  | _ :: _ =>
      print (MsgFoundDta (length dta_files)) ;;;
      acc <- convert_files input_path output_folder dta_files (0, 0) ;;
      print (MsgConvertSummary (fst acc) (snd acc) (length dta_files))
  end.

End Converter.

(** ** extract_column_names.py *)

Module Extractor.
Import PathLib Pandas OS.
Local Open Scope os_scope.

Definition newline : string := String (ascii_of_nat 10) EmptyString.

(** [f"{i}. {col}\n"] *)
Definition numbered_line (i : nat) (col : string) : string :=
  show_nat i +:+ ". " +:+ col +:+ newline.

(** The strings written by [for i, col in enumerate(column_names, 1)]. *)
Fixpoint numbered_lines (i : nat) (column_names : list string) : list string :=
  match column_names with
  | [] => []
  | col :: rest => numbered_line i col :: numbered_lines (S i) rest
  end.

(** [parent / f"{stem}_columns.txt"] *)
Definition default_output (csv_path : path) : path :=
  joinpath (parent csv_path) (stem csv_path +:+ "_columns.txt").

(** [extract_column_names(csv_file, output_file)] *)
Definition extract_column_names (csv_path : path) (output_file : option path) : M unit :=
  found <- path_exists csv_path ;;
  if negb found then print (MsgFileNotFound csv_path)
  else
    print (MsgReadingColumns (name csv_path)) ;;;
    df <- pd_read_csv_header csv_path ;;
    let column_names := columns df in
    let output_path :=
      match output_file with
      | Some p => p
      | None => default_output csv_path
      end in
    write_file output_path (TextFile (String.concat "" (numbered_lines 1 column_names))) ;;;
    print (MsgExtracted (length column_names)) ;;;
    print (MsgSavedTo output_path).

End Extractor.

(** * Auxiliary definitions

    Names used to state the properties below: the labels that qualify,
    the worlds after a run, the invariants of the reader, and the concrete
    tables and file trees of the examples. *)

Import PathLib Pandas OS Pruner Extractor.

(** The labels of the columns that qualify, in column order. *)
Definition qualifying (l : list (string * list cell)) : list string :=
  map fst (List.filter (fun kv => qualifies (snd kv)) l).

(** The table of the spec's example: [A] all marker, [B] all empty string,
    [C] mixing marker and values, [D] fully populated. *)
Definition abcd : DataFrame :=
  mkDataFrame 3
    [("A", [NaN; NaN; NaN]);
     ("B", [Str ""; Str ""; Str ""]);
     ("C", [NaN; Str "12.5"; NaN]);
     ("D", [Str "1"; Str "2"; Str "3"])].

(** A frame with one column holding the marker in one row and the empty
    string in the other. *)
Definition mixed_frame : DataFrame :=
  mkDataFrame 2 [("X", [NaN; Str ""])].

(** A tiny table and a world holding it as [data/survey.v2.dta]. *)
Definition small_frame : DataFrame :=
  mkDataFrame 2 [("age", [Str "31"; Str "27"]); ("hb", [Str "11.2"; NaN])].

Definition dotted_world : World :=
  mkWorld {[ ["data"; "survey.v2.dta"] := DtaFile small_frame ]}
    [["data"; "survey.v2.dta"]] ∅ true [].


Definition upper_case_world : World :=
  mkWorld {[ ["in"; "sub"; "HH.DTA"] := DtaFile small_frame ]} [["in"; "sub"; "HH.DTA"]] ∅ true [].

(** Unfolding of the monad and of the file operations, leaving the maps alone. *)
Ltac run :=
  unfold bind, ret, raise, lift, try_except, print, path_exists, stat, pd_read_csv,
    pd_read_csv_header, pd_read_stata, df_to_csv, write_file, rename, mkdir_parents,
    set_files, add_listing;
  cbn [files listing wfail case_sensitive stdout fst snd negb rbind
       any_exception is_permission_error].

Ltac file_exists H :=
  repeat progress
    (run; rewrite ?H;
     rewrite ?(bool_decide_eq_true_2 (is_Some (Some _))) by (eexists; reflexivity)).

(** The world after further console lines. *)
Definition emit (w : World) (ms : list msg) : World :=
  mkWorld (files w) (listing w) (wfail w) (case_sensitive w) (stdout w ++ ms).

(** The world after a file was stored and further console lines. *)
Definition stored (w : World) (p : path) (c : content) (ms : list msg) : World :=
  mkWorld (<[p := c]> (files w))
    (if bool_decide (p ∈ listing w) then listing w else listing w ++ [p])
    (wfail w) (case_sensitive w) (stdout w ++ ms).

(** A file with an all-marker column, stored under a name ending in [.txt]
    and locked against writing. *)
Definition sparse_text : csv_text :=
  mkCsv ["id"; "notes"] [["1"; ""]; ["2"; ""]].

Definition locked_txt_world : World :=
  mkWorld {[ ["data.txt"] := CsvFile sparse_text ]} [["data.txt"]]
    {[ ["data.txt"] := PermissionError ]} true [].

Definition locked_csv_world : World :=
  mkWorld {[ ["d"; "survey.csv"] := CsvFile sparse_text ]} [["d"; "survey.csv"]]
    {[ ["d"; "survey.csv"] := PermissionError ]} true [].

(** A directory whose only entry [gone.csv] is a dangling link. *)
Definition dangling_world : World :=
  mkWorld ∅ [["d"; "gone.csv"]] ∅ true [].

(** Case analysis on everything a run branches on. *)
Ltac branches :=
  repeat (run;
          match goal with
          | |- context [match ?x with _ => _ end] =>
              lazymatch x with
              | context [match _ with _ => _ end] => fail
              | (_, _) => fail
              | _ => destruct x eqn:?
              end
          end).

Definition tally (acc : counters) : nat := successful acc + failed acc.

(** The files of [w'] are those of [w], possibly with contents replaced or
    files added. *)
Definition keeps_files (w w' : World) : Prop :=
  forall q, is_Some (files w !! q) -> is_Some (files w' !! q).

(** The files a pruning pass enumerates. *)
Definition csv_files_of (folder : path) (recursive : bool) (w : World) : list path :=
  List.filter
    (fun p =>
       if recursive
       then is_under folder p && matches_ext (case_sensitive w) ".csv" (name p)
       else bool_decide (parent p = folder) && bool_decide (p <> [])
            && matches_ext (case_sensitive w) ".csv" (name p))
    (listing w).

(** The files a conversion enumerates. *)
Definition dta_files_of (input_path : path) (w : World) : list path :=
  List.filter (fun p => is_under input_path p && matches_ext (case_sensitive w) ".dta" (name p))
    (listing w)
  ++ List.filter (fun p => is_under input_path p && matches_ext (case_sensitive w) ".DTA" (name p))
       (listing w).

(** The candidate name for [old_col] at count [k]. *)
Definition candidate (old_col : string) (k : nat) : string :=
  old_col +:+ "." +:+ show_nat k.

(** Every name with a positive count is a name of the header. *)
Definition counted_in (counts : gmap string nat) (hdr : list string) : Prop :=
  forall x, 0 < counts_get counts x -> x ∈ hdr.

(** The state of the renaming after the positions [done] have had their turn:
    the names with a count are the names at those positions, which are
    pairwise distinct; no name is empty. *)
Definition mangled (done : list nat) (hdr : list string) (counts : gmap string nat) : Prop :=
  (forall x, 0 < counts_get counts x <-> exists i, In i done /\ hdr !! i = Some x)
  /\ (forall i j x, In i done -> In j done -> hdr !! i = Some x -> hdr !! j = Some x -> i = j)
  /\ (forall x, x ∈ hdr -> x <> "").

(** A cell the reader can yield: the marker, or a value whose text is not
    one of the missing-value strings. *)
Definition clean_cell (c : cell) : Prop :=
  match c with
  | NaN => True
  | Str s => s ∉ STR_NA_VALUES
  end.

(** What holds of every frame the reader yields. *)
Definition loaded (df : DataFrame) : Prop :=
  List.NoDup (columns df)
  /\ ~ In "" (columns df)
  /\ rectangular df
  /\ Forall (fun kv => Forall clean_cell (snd kv)) (cols df).

(** The path that holds the result of a run that removed [removed] columns:
    the sibling when the original was refused, the original otherwise. *)
Definition output_path (w : World) (p : path) (removed : nat) : path :=
  if removed =? 0 then p
  else
    match wfail w !! p with
    | Some _ => cleaned_path p
    | None => p
    end.

(** The frame a pruning leaves. *)
Definition kept (df : DataFrame) : DataFrame :=
  mkDataFrame (nrows df) (List.filter (fun kv => negb (qualifies (snd kv))) (cols df)).

Definition survey_world : World :=
  mkWorld {[ ["d"; "survey.csv"] := CsvFile sparse_text ]} [["d"; "survey.csv"]] ∅ true [].

(** A header-only file loses all of its columns, and the second run stops at the reader. *)
Definition header_only_world : World :=
  mkWorld {[ ["d"; "empty.csv"] := CsvFile (mkCsv ["a"; "b"] []) ]} [["d"; "empty.csv"]] ∅ true [].

(** A file whose header repeats a name; the second column is all marker. *)
Definition repeated_header : csv_text :=
  mkCsv ["a"; "a"] [["1"; ""]; ["2"; ""]].

Definition repeated_header_frame : DataFrame :=
  mkDataFrame 2 [("a", [Str "1"; Str "2"]); ("a.1", [NaN; NaN])].

Definition output_of (csv_path : path) (output_file : option path) : path :=
  match output_file with
  | Some p => p
  | None => default_output csv_path
  end.

(** A file whose header repeats [age]. *)
Definition twice_age_world : World :=
  mkWorld {[ ["d"; "t.csv"] := CsvFile (mkCsv ["age"; "age"] [["31"; "32"]]) ]}
    [["d"; "t.csv"]] ∅ true [].

Definition three_columns_world : World :=
  mkWorld {[ ["d"; "t.csv"] := CsvFile (mkCsv ["age"; "sex"; "weight"] [["31"; "F"; "58.5"]]) ]}
    [["d"; "t.csv"]] ∅ true [].

(** A file none of whose columns is all marker or all empty, and a world
    holding it locked against writing. *)
Definition dense_text : csv_text :=
  mkCsv ["id"; "hb"] [["1"; "11.2"]; ["2"; ""]].

Definition dense_locked_world : World :=
  mkWorld {[ ["d"; "dense.csv"] := CsvFile dense_text ]} [["d"; "dense.csv"]]
    {[ ["d"; "dense.csv"] := PermissionError ]} true [].

(** The survey file on a disk that refuses the write with an error other
    than [PermissionError]. *)
Definition disk_error_world : World :=
  mkWorld {[ ["d"; "survey.csv"] := CsvFile sparse_text ]} [["d"; "survey.csv"]]
    {[ ["d"; "survey.csv"] := OtherOSError ]} true [].

(** [q] is none of the files [l], and the [_cleaned] sibling of none. *)
Definition untouched_by (l : list path) (q : path) : Prop :=
  forall p, In p l -> q <> p /\ q <> cleaned_path p.

(** What the loop of [process_folder] keeps true of its counters. *)
Definition totals_sound (acc : counters) : Prop :=
  total_removed acc <= total_original acc /\ successful acc <= total_original acc.

(** The path [convert_one] applies [with_suffix('.csv')] to. *)
Definition output_stem_path (input_path : path) (output_folder : option path) (dta_file : path)
    : result path :=
  match output_folder with
  | Some out => rbind (relative_to dta_file input_path) (fun rel => Ok (out ++ rel))
  | None => Ok (joinpath (parent dta_file) (stem dta_file))
  end.

(** A tree whose only [.dta] entry does not hold a Stata table. *)
Definition junk_world : World :=
  mkWorld {[ ["in"; "bad.dta"] := Junk ]} [["in"; "bad.dta"]] ∅ true [].

(** A Stata file with a dotted base name, one directory below the input folder. *)
Definition nested_world : World :=
  mkWorld {[ ["data"; "wave1"; "survey.v2.dta"] := DtaFile small_frame ]}
    [["data"; "wave1"; "survey.v2.dta"]] ∅ true [].

(** A file with no header line at all. *)
Definition headerless_world : World :=
  mkWorld {[ ["d"; "blank.csv"] := CsvFile (mkCsv [] []) ]} [["d"; "blank.csv"]] ∅ true [].

(** A tree on a case-folding file system. *)
Definition folding_world : World :=
  mkWorld {[ ["in"; "hh.dta"] := DtaFile small_frame; ["in"; "notes.txt"] := Junk ]}
    [["in"; "hh.dta"]; ["in"; "notes.txt"]] ∅ false [].

(** The entries below [input_path] whose name ends in [.dta] once letter case is folded. *)
Definition folded_matches (input_path : path) (w : World) : list path :=
  List.filter (fun p => is_under input_path p && ends_with ".dta" (lower (name p))) (listing w).


(** * Properties *)

(** ** Evaluations of the library models *)

Example suffix_plain : suffix ["data"; "survey.dta"] = ".dta".
Proof. reflexivity. Qed.
Example stem_dotted : stem ["data"; "survey.v2.dta"] = "survey.v2".
Proof. reflexivity. Qed.
Example suffix_hidden : suffix_of ".csv" = "".
Proof. reflexivity. Qed.
Example suffix_trailing_dot : suffix_of "a." = "".
Proof. reflexivity. Qed.
Example with_suffix_replaces : with_suffix ["d"; "survey.v2"] ".csv" = Ok ["d"; "survey.csv"].
Proof. reflexivity. Qed.
Example with_suffix_appends : with_suffix ["d"; "survey"] ".csv" = Ok ["d"; "survey.csv"].
Proof. reflexivity. Qed.
Example matches_mixed_case_posix : matches_ext true ".dta" "x.Dta" = false.
Proof. reflexivity. Qed.
Example matches_mixed_case_windows : matches_ext false ".dta" "x.Dta" = true.
Proof. reflexivity. Qed.
Example mangle_twice : mangle_dupe_cols ["age"; "age"] = Some ["age"; "age.1"].
Proof. vm_compute. reflexivity. Qed.
Example mangle_skips_taken : mangle_dupe_cols ["a"; "a"; "a.1"] = Some ["a"; "a.2"; "a.1"].
Proof. vm_compute. reflexivity. Qed.
Example mangle_unnamed : mangle_dupe_cols ["a"; ""; "Unnamed: 1"] = Some ["a"; "Unnamed: 1.1"; "Unnamed: 1"].
Proof. vm_compute. reflexivity. Qed.
Example mangle_distinct : mangle_dupe_cols ["age"; "sex"; "weight"] = Some ["age"; "sex"; "weight"].
Proof. vm_compute. reflexivity. Qed.

(** ** The decision of the Column Pruner on a loaded frame *)

Section PrunerDecision.
Import Pruner.

Lemma count_true_le (f : cell -> bool) (cs : list cell) : count_true f cs <= length cs.
Proof. unfold count_true. apply List.filter_length_le. Qed.

(** The count test of the script is the whole-column predicate. *)
Lemma count_true_all (f : cell -> bool) (cs : list cell) :
  (count_true f cs =? length cs) = forallb f cs.
Proof.
  induction cs as [|c cs IH]; [reflexivity|].
  unfold count_true in *. simpl. destruct (f c); simpl.
  - exact IH.
  - apply Nat.eqb_neq. pose proof (List.filter_length_le f cs). lia.
Qed.

(** Indexing a series whose labels are distinct yields the scalar. *)
Lemma getitem_unique (s : Series) (k : string) (v : nat) :
  List.NoDup (map fst s) -> In (k, v) s -> getitem s k = Ok (Scalar v).
Proof.
  unfold getitem. induction s as [|[k' v'] s IH]; intros Hnd Hin; [destruct Hin|].
  simpl in Hnd. apply List.NoDup_cons_iff in Hnd as [Hnot Hnd]. simpl.
  destruct Hin as [Heq|Hin].
  - inversion Heq; subst. rewrite bool_decide_eq_true_2 by reflexivity.
    assert (Hnil : List.filter (fun kv : string * nat => bool_decide (fst kv = k)) s = []).
    { clear IH Hnd. induction s as [|[k2 v2] s IHs]; [reflexivity|]. simpl.
      rewrite bool_decide_eq_false_2.
      - apply IHs. intros Hc. apply Hnot. right. exact Hc.
      - intros ->. apply Hnot. left. reflexivity. }
    rewrite Hnil. reflexivity.
  - rewrite bool_decide_eq_false_2.
    + apply IH; assumption.
    + intros ->. apply Hnot. apply (in_map fst) in Hin. exact Hin.
Qed.

Lemma isnull_sum_labels (df : DataFrame) : map fst (isnull_sum df) = columns df.
Proof. unfold isnull_sum, columns. rewrite List.map_map. reflexivity. Qed.

Lemma eq_sum_labels (s : string) (df : DataFrame) : map fst (eq_sum s df) = columns df.
Proof. unfold eq_sum, columns. rewrite List.map_map. reflexivity. Qed.

Lemma scan_columns_spec (df : DataFrame) :
  List.NoDup (columns df) -> rectangular df ->
  forall (l : list (string * list cell)) (acc : list string),
    List.incl l (cols df) ->
    scan_columns (len df) (isnull_sum df) (eq_sum "" df) (map fst l) acc
    = Ok (acc ++ qualifying l).
Proof.
  intros Hnd Hrect l. induction l as [|[c cs] l IH]; intros acc Hincl.
  - simpl. unfold qualifying. simpl. rewrite List.app_nil_r. reflexivity.
  - assert (Hin : In (c, cs) (cols df)) by (apply Hincl; left; reflexivity).
    assert (Hlen : length cs = nrows df).
    { unfold rectangular in Hrect. rewrite List.Forall_forall in Hrect.
      apply (Hrect (c, cs)). exact Hin. }
    simpl.
    rewrite (getitem_unique (isnull_sum df) c (count_true isnull cs)).
    2: { rewrite isnull_sum_labels. exact Hnd. }
    2: { unfold isnull_sum. apply (in_map (fun kv => (fst kv, count_true isnull (snd kv))) _ _ Hin). }
    simpl. unfold len. rewrite <- Hlen, count_true_all.
    rewrite (getitem_unique (eq_sum "" df) c (count_true (eq_str "") cs)).
    2: { rewrite eq_sum_labels. exact Hnd. }
    2: { unfold eq_sum. apply (in_map (fun kv => (fst kv, count_true (eq_str "") (snd kv))) _ _ Hin). }
    simpl. rewrite count_true_all.
    rewrite Hlen. fold (len df).
    destruct (forallb isnull cs) eqn:Hnull; simpl.
    + rewrite IH by (intros x Hx; apply Hincl; right; exact Hx).
      unfold qualifying. simpl. unfold qualifies at 2, all_null. rewrite Hnull. simpl.
      rewrite <- List.app_assoc. reflexivity.
    + rewrite IH by (intros x Hx; apply Hincl; right; exact Hx).
      unfold qualifying. simpl. unfold qualifies at 2, all_null, all_empty_string.
      rewrite Hnull. simpl.
      destruct (forallb (eq_str "") cs); simpl.
      * rewrite <- List.app_assoc. reflexivity.
      * reflexivity.
Qed.

Lemma cols_to_drop_spec (df : DataFrame) :
  List.NoDup (columns df) -> rectangular df ->
  cols_to_drop df = Ok (qualifying (cols df)).
Proof.
  intros Hnd Hrect. unfold cols_to_drop, columns.
  rewrite (scan_columns_spec df Hnd Hrect (cols df) []) by apply List.incl_refl.
  reflexivity.
Qed.

End PrunerDecision.

Section PrunerDrop.
Import Pruner.

Lemma unique_label_cells {B : Type} (l : list (string * B)) (c : string) (x y : B) :
  List.NoDup (map fst l) -> In (c, x) l -> In (c, y) l -> x = y.
Proof.
  induction l as [|[k v] l IH]; intros Hnd Hx Hy; [destruct Hx|].
  simpl in Hnd. apply List.NoDup_cons_iff in Hnd as [Hnot Hnd].
  destruct Hx as [Hx|Hx], Hy as [Hy|Hy].
  - congruence.
  - inversion Hx; subst. exfalso. apply Hnot. apply (in_map fst) in Hy. exact Hy.
  - inversion Hy; subst. exfalso. apply Hnot. apply (in_map fst) in Hx. exact Hx.
  - apply IH; assumption.
Qed.

Lemma in_qualifying (l : list (string * list cell)) (c : string) (cs : list cell) :
  List.NoDup (map fst l) -> In (c, cs) l ->
  (In c (qualifying l) <-> qualifies cs = true).
Proof.
  intros Hnd Hin. unfold qualifying. split.
  - intros Hc. apply List.in_map_iff in Hc as [[c' cs'] [Hfst Hf]].
    simpl in Hfst. subst c'. apply List.filter_In in Hf as [Hin' Hq]. simpl in Hq.
    rewrite (unique_label_cells l c cs cs' Hnd Hin Hin'). exact Hq.
  - intros Hq. apply List.in_map_iff. exists (c, cs). split; [reflexivity|].
    apply List.filter_In. split; assumption.
Qed.

Lemma qualifying_incl (l : list (string * list cell)) (c : string) :
  In c (qualifying l) -> In c (map fst l).
Proof.
  unfold qualifying. intros Hc. apply List.in_map_iff in Hc as [kv [Hfst Hf]].
  apply List.filter_In in Hf as [Hin _]. subst c. apply in_map. exact Hin.
Qed.

(** Dropping the qualifying labels keeps the other columns, in order. *)
Lemma drop_qualifying (df : DataFrame) :
  List.NoDup (columns df) ->
  drop df (qualifying (cols df))
  = Ok (mkDataFrame (nrows df) (List.filter (fun kv => negb (qualifies (snd kv))) (cols df))).
Proof.
  intros Hnd. unfold drop.
  assert (Hall : forallb (fun l => bool_decide (l ∈ columns df)) (qualifying (cols df)) = true).
  { apply List.forallb_forall. intros c Hc. apply bool_decide_eq_true_2.
    apply list_elem_of_In. apply qualifying_incl. exact Hc. }
  rewrite Hall. f_equal. f_equal.
  apply List.filter_ext_in. intros [c cs] Hin. simpl. f_equal.
  destruct (qualifies cs) eqn:Hq.
  - apply bool_decide_eq_true_2. apply list_elem_of_In.
    apply (in_qualifying (cols df) c cs Hnd Hin). exact Hq.
  - apply bool_decide_eq_false_2. intros Hc. apply list_elem_of_In in Hc.
    apply (in_qualifying (cols df) c cs Hnd Hin) in Hc. congruence.
Qed.

End PrunerDrop.


Lemma abcd_labels_distinct : List.NoDup (columns abcd).
Proof.
  unfold abcd, columns. simpl.
  repeat (apply List.NoDup_cons; [simpl; intuition discriminate|]).
  apply List.NoDup_nil.
Defined.

Lemma abcd_rectangular : rectangular abcd.
Proof. unfold rectangular, abcd. simpl. repeat constructor. Defined.


(** ** Columns of markers and empty strings *)

(** The loop on a frame built in memory: every row of [X] is the marker or
    the empty string, both occur, and nothing is collected.  The reader
    yields no such frame ([mixed_frame_is_not_loaded] below), so the pruner,
    which takes its frames from the reader (line 39), never meets one. *)
Lemma mixed_column_is_kept :
  Forall (fun x => x = NaN \/ x = Str "") [NaN; Str ""]
  /\ In ("X", [NaN; Str ""]) (cols mixed_frame)
  /\ Pruner.cols_to_drop mixed_frame = Ok [].
Proof.
  split; [|split].
  - apply List.Forall_cons; [left; reflexivity|].
    apply List.Forall_cons; [right; reflexivity|]. apply List.Forall_nil.
  - left. reflexivity.
  - reflexivity.
Qed.

Section MixedColumns.
Import Pruner.

Lemma all_null_iff (cs : list cell) : all_null cs = true <-> forall x, In x cs -> x = NaN.
Proof.
  unfold all_null. rewrite List.forallb_forall. split; intros H x Hx.
  - specialize (H x Hx). destruct x; [reflexivity|discriminate].
  - rewrite (H x Hx). reflexivity.
Qed.

Lemma all_empty_string_iff (cs : list cell) :
  all_empty_string cs = true <-> forall x, In x cs -> x = Str "".
Proof.
  unfold all_empty_string. rewrite List.forallb_forall. split; intros H x Hx.
  - specialize (H x Hx). destruct x as [|s]; [discriminate|].
    simpl in H. apply bool_decide_eq_true_1 in H. subst. reflexivity.
  - rewrite (H x Hx). reflexivity.
Qed.

(** A column of markers and empty strings qualifies unless it holds both. *)
Lemma qualifies_unmixed (cs : list cell) :
  (forall x, In x cs -> x = NaN \/ x = Str "") ->
  (qualifies cs = true <-> ~ (In NaN cs /\ In (Str "") cs)).
Proof.
  intros Hcells. unfold qualifies. rewrite orb_true_iff, all_null_iff, all_empty_string_iff.
  split.
  - intros [Hall|Hall] [Hn He].
    + specialize (Hall _ He). discriminate.
    + specialize (Hall _ Hn). discriminate.
  - intros Hnot.
    destruct (List.in_dec cell_eq_dec NaN cs) as [Hn|Hn].
    + left. intros x Hx. destruct (Hcells x Hx) as [->| ->]; [reflexivity|].
      exfalso. apply Hnot. split; assumption.
    + right. intros x Hx. destruct (Hcells x Hx) as [->| ->]; [|reflexivity].
      contradiction.
Qed.

End MixedColumns.

(** The loop on any frame with distinct labels, also one built in memory:
    among the columns in which every row is the marker or the empty string,
    it collects exactly those that do not hold both. *)
Theorem uniform_columns_qualify (df : DataFrame) (c : string) (cs : list cell) :
  List.NoDup (columns df) -> rectangular df ->
  In (c, cs) (cols df) ->
  (forall x, In x cs -> x = NaN \/ x = Str "") ->
  exists dropped,
    Pruner.cols_to_drop df = Ok dropped
    /\ (In c dropped <-> ~ (In NaN cs /\ In (Str "") cs)).
Proof.
  intros Hnd Hrect Hin Hcells.
  exists (qualifying (cols df)). split.
  - apply cols_to_drop_spec; assumption.
  - rewrite (in_qualifying (cols df) c cs Hnd Hin).
    apply qualifies_unmixed. exact Hcells.
Qed.

Lemma uniform_column_of_abcd :
  exists dropped,
    Pruner.cols_to_drop abcd = Ok dropped
    /\ (In "B" dropped
        <-> ~ (In NaN [Str ""; Str ""; Str ""] /\ In (Str "") [Str ""; Str ""; Str ""])).
Proof.
  apply (uniform_columns_qualify abcd "B" [Str ""; Str ""; Str ""]
           abcd_labels_distinct abcd_rectangular).
  - simpl. right. left. reflexivity.
  - intros x Hx. right. simpl in Hx. intuition congruence.
Defined.

(** ** The Converter's output path *)

(** C8 at a dotted base name.  With no output directory the file
    [data/survey.v2.dta] is written to [data/survey.csv]: [stem] has already
    taken [.dta] off, and [with_suffix('.csv')] then replaces [.v2].  The
    branch with an output directory, which applies [with_suffix] to the
    whole file name, writes [survey.v2.csv]. *)
Theorem dotted_base_name_is_truncated :
  snd (Converter.convert_one ["data"] None ["data"; "survey.v2.dta"] dotted_world)
    = Ok ["data"; "survey.csv"]
  /\ files (fst (Converter.convert_one ["data"] None ["data"; "survey.v2.dta"] dotted_world))
       !! ["data"; "survey.v2.csv"] = None
  /\ snd (Converter.convert_one ["data"] (Some ["out"]) ["data"; "survey.v2.dta"] dotted_world)
    = Ok ["out"; "survey.v2.csv"].
Proof. vm_compute. repeat split; reflexivity. Qed.

(** ** Discovery of Stata files *)

Section Discovery.

Lemma length_lower (s : string) : String.length (lower s) = String.length s.
Proof. induction s as [|c s IH]; simpl; [reflexivity|]. rewrite IH. reflexivity. Qed.

Lemma substring_lower (s : string) : forall n m,
  substring n m (lower s) = lower (substring n m s).
Proof.
  induction s as [|c s IH]; intros n m.
  - destruct n, m; reflexivity.
  - destruct n as [|n]; destruct m as [|m]; simpl; try reflexivity.
    + rewrite IH. reflexivity.
    + apply IH.
    + apply IH.
Qed.

Lemma ends_with_lower (suf s : string) :
  ends_with suf s = true -> ends_with (lower suf) (lower s) = true.
Proof.
  unfold ends_with. rewrite !andb_true_iff, !length_lower.
  intros [Hlen Heq]. split; [exact Hlen|].
  apply bool_decide_eq_true_1 in Heq. apply bool_decide_eq_true_2.
  rewrite substring_lower, Heq. reflexivity.
Qed.

(** Matching the literal pattern: a name ending with the extension matches
    under either flavour. *)
Lemma matches_ext_exact (cs : bool) (ext nm : string) :
  ends_with ext nm = true -> matches_ext cs ext nm = true.
Proof.
  intros H. unfold matches_ext. destruct cs; [exact H|]. apply ends_with_lower. exact H.
Qed.

End Discovery.




(** ** Runs of the single-file pruner *)

Section PrunerRuns.
Import Pruner.

Lemma run_missing (w : World) (p : path) (inplace : bool) :
  files w !! p = None ->
  remove_null_columns p inplace w = (emit w [MsgFileNotFound p], Ok None).
Proof.
  intros Hnone. unfold remove_null_columns. run.
  rewrite Hnone. rewrite bool_decide_eq_false_2 by (intros [x Hx]; discriminate).
  reflexivity.
Qed.

Lemma run_unreadable (w : World) (p : path) (inplace : bool) (c : content) (e : exn) :
  files w !! p = Some c ->
  snd (pd_read_csv p w) = Raise e ->
  remove_null_columns p inplace w = (emit w [MsgProcessing (name p)], Raise e).
Proof.
  intros Hsome Hread. unfold remove_null_columns. file_exists Hsome. unfold pd_read_csv in Hread. rewrite Hsome in Hread.
  rewrite ?Hsome.
  destruct c as [t| | |]; run; cbn [snd] in Hread; try (inversion Hread; subst; reflexivity).
  destruct (read_csv t); [discriminate|]. inversion Hread; subst. reflexivity.
Qed.

Lemma run_no_null_columns (w : World) (p : path) (inplace : bool) (t : csv_text) (df : DataFrame) :
  files w !! p = Some (CsvFile t) ->
  read_csv t = Ok df ->
  cols_to_drop df = Ok [] ->
  remove_null_columns p inplace w
  = (emit w [MsgProcessing (name p); MsgOriginal (len df) (length (columns df)); MsgNoNullColumns],
     Ok (Some (length (columns df), length (columns df), 0))).
Proof.
  intros Hsome Hread Hdrop. unfold remove_null_columns. file_exists Hsome. rewrite Hread. run. rewrite Hdrop. run.
  unfold emit. run. rewrite <- !List.app_assoc. reflexivity.
Qed.

Lemma run_evaluation_raises (w : World) (p : path) (inplace : bool) (t : csv_text)
    (df : DataFrame) (e : exn) :
  files w !! p = Some (CsvFile t) ->
  read_csv t = Ok df ->
  cols_to_drop df = Raise e ->
  remove_null_columns p inplace w
  = (emit w [MsgProcessing (name p); MsgOriginal (len df) (length (columns df))], Raise e).
Proof.
  intros Hsome Hread Hdrop. unfold remove_null_columns. file_exists Hsome. rewrite Hread. run. rewrite Hdrop. run.
  unfold emit. run. rewrite <- !List.app_assoc. reflexivity.
Qed.

Lemma run_rewrites (w : World) (p : path) (t : csv_text) (df df' : DataFrame)
    (c : string) (l : list string) :
  files w !! p = Some (CsvFile t) ->
  read_csv t = Ok df ->
  cols_to_drop df = Ok (c :: l) ->
  drop df (c :: l) = Ok df' ->
  wfail w !! p = None ->
  remove_null_columns p true w
  = (stored w p (CsvFile (to_csv df'))
       [MsgProcessing (name p); MsgOriginal (len df) (length (columns df));
        MsgRemoving (length (c :: l));
        MsgRemoved (length (c :: l)) (length (columns df'))],
     Ok (Some (length (columns df), length (columns df'), length (c :: l)))).
Proof.
  intros Hsome Hread Hdrop Hdf' Hw. unfold remove_null_columns. file_exists Hsome.
  rewrite Hread. run. rewrite Hdrop. run. rewrite Hdf'. run. rewrite Hw. run.
  rewrite lookup_insert_eq. rewrite bool_decide_eq_true_2 by (eexists; reflexivity).
  unfold stored. rewrite <- !List.app_assoc. reflexivity.
Qed.

Lemma run_fallback (w : World) (p : path) (t : csv_text) (df df' : DataFrame)
    (c : string) (l : list string) :
  files w !! p = Some (CsvFile t) ->
  read_csv t = Ok df ->
  cols_to_drop df = Ok (c :: l) ->
  drop df (c :: l) = Ok df' ->
  wfail w !! p = Some PermissionError ->
  wfail w !! cleaned_path p = None ->
  remove_null_columns p true w
  = (stored w (cleaned_path p) (CsvFile (to_csv df'))
       [MsgProcessing (name p); MsgOriginal (len df) (length (columns df));
        MsgRemoving (length (c :: l));
        MsgLockedSavedAs (name (cleaned_path p));
        MsgRemoved (length (c :: l)) (length (columns df'))],
     Ok (Some (length (columns df), length (columns df'), length (c :: l)))).
Proof.
  intros Hsome Hread Hdrop Hdf' Hw Hc. unfold remove_null_columns. file_exists Hsome.
  rewrite Hread. run. rewrite Hdrop. run. rewrite Hdf'. run. rewrite Hw. run.
  rewrite Hc. run.
  rewrite lookup_insert_eq. rewrite bool_decide_eq_true_2 by (eexists; reflexivity).
  unfold stored. rewrite <- !List.app_assoc. reflexivity.
Qed.

Lemma run_fallback_refused (w : World) (p : path) (t : csv_text) (df df' : DataFrame)
    (c : string) (l : list string) (e : exn) :
  files w !! p = Some (CsvFile t) ->
  read_csv t = Ok df ->
  cols_to_drop df = Ok (c :: l) ->
  drop df (c :: l) = Ok df' ->
  wfail w !! p = Some PermissionError ->
  wfail w !! cleaned_path p = Some e ->
  remove_null_columns p true w
  = (emit w [MsgProcessing (name p); MsgOriginal (len df) (length (columns df));
             MsgRemoving (length (c :: l))],
     Raise e).
Proof.
  intros Hsome Hread Hdrop Hdf' Hw Hc. unfold remove_null_columns. file_exists Hsome.
  rewrite Hread. run. rewrite Hdrop. run. rewrite Hdf'. run. rewrite Hw. run.
  rewrite Hc. run. unfold emit. rewrite <- !List.app_assoc. reflexivity.
Qed.

Lemma run_write_refused (w : World) (p : path) (t : csv_text) (df df' : DataFrame)
    (c : string) (l : list string) (e : exn) :
  files w !! p = Some (CsvFile t) ->
  read_csv t = Ok df ->
  cols_to_drop df = Ok (c :: l) ->
  drop df (c :: l) = Ok df' ->
  wfail w !! p = Some e ->
  e <> PermissionError ->
  remove_null_columns p true w
  = (emit w [MsgProcessing (name p); MsgOriginal (len df) (length (columns df));
             MsgRemoving (length (c :: l))],
     Raise e).
Proof.
  intros Hsome Hread Hdrop Hdf' Hw He. unfold remove_null_columns. file_exists Hsome.
  rewrite Hread. run. rewrite Hdrop. run. rewrite Hdf'. run. rewrite Hw. run.
  destruct e; try contradiction; run; unfold emit; rewrite <- !List.app_assoc; reflexivity.
Qed.

End PrunerRuns.

(** ** The fallback path differs from the original *)

Section CleanedPath.
Import Pruner.

Lemma rfind_dot_get (s : string) : forall i,
  rfind_dot s = Some i -> String.get i s = Some "."%char.
Proof.
  induction s as [|a s IH]; intros i Hi; [discriminate|].
  simpl in Hi. destruct (rfind_dot s) as [j|] eqn:Hj.
  - inversion Hi; subst. simpl. apply IH. reflexivity.
  - destruct (Ascii.eqb a "."%char) eqn:Ha; [|discriminate].
    inversion Hi; subst. simpl. apply Ascii.eqb_eq in Ha. subst. reflexivity.
Qed.

Lemma rfind_dot_lt (s : string) : forall i, rfind_dot s = Some i -> i < String.length s.
Proof.
  induction s as [|a s IH]; intros i Hi; [discriminate|].
  simpl in Hi. destruct (rfind_dot s) as [j|] eqn:Hj.
  - inversion Hi; subst. simpl. specialize (IH j eq_refl). lia.
  - destruct (Ascii.eqb a "."%char); [|discriminate]. inversion Hi; subst. simpl. lia.
Qed.

Lemma length_substring_prefix (s : string) : forall i,
  i <= String.length s -> String.length (substring 0 i s) = i.
Proof.
  induction s as [|a s IH]; intros i Hi.
  - simpl in Hi. assert (i = 0) by lia. subst. reflexivity.
  - destruct i as [|i]; [reflexivity|]. simpl in *. rewrite IH by lia. reflexivity.
Qed.

Lemma get_append_at_length (s1 s2 : string) :
  String.get (String.length s1) (s1 +:+ s2) = String.get 0 s2.
Proof. induction s1 as [|a s1 IH]; simpl; [reflexivity|exact IH]. Qed.

Lemma length_append (s1 s2 : string) :
  String.length (s1 +:+ s2) = String.length s1 + String.length s2.
Proof. induction s1 as [|a s1 IH]; simpl; [reflexivity|]. rewrite IH. reflexivity. Qed.

(** No file name is its own stem followed by [_cleaned.csv]. *)
Lemma stem_cleaned_differs (nm : string) : stem_of nm +:+ "_cleaned.csv" <> nm.
Proof.
  unfold stem_of. intros Heq.
  destruct (rfind_dot nm) as [i|] eqn:Hi.
  - destruct ((0 <? i) && (i <? String.length nm - 1)) eqn:Hc.
    + pose proof (rfind_dot_get nm i Hi) as Hget.
      pose proof (rfind_dot_lt nm i Hi) as Hlt.
      rewrite <- Heq in Hget at 1.
      rewrite <- (length_substring_prefix nm i) in Hget at 1 by lia.
      rewrite get_append_at_length in Hget. discriminate.
    + apply (f_equal String.length) in Heq. rewrite length_append in Heq. simpl in Heq. lia.
  - apply (f_equal String.length) in Heq. rewrite length_append in Heq. simpl in Heq. lia.
Qed.

Lemma cleaned_path_differs (p : path) : cleaned_path p <> p.
Proof.
  unfold cleaned_path, joinpath, parent, stem, name. intros Heq.
  destruct (List.exists_last (l := p)) as [front [lst Hp]].
  - intros ->. simpl in Heq. discriminate.
  - subst p. rewrite List.removelast_last, List.last_last in Heq.
    apply List.app_inj_tail in Heq as [_ Heq]. exact (stem_cleaned_differs lst Heq).
Qed.

Lemma cleaned_path_name (p : path) : name (cleaned_path p) = stem p +:+ "_cleaned.csv".
Proof. unfold cleaned_path, joinpath, name. apply List.last_last. Qed.

Lemma cleaned_path_parent (p : path) : parent (cleaned_path p) = parent p.
Proof. unfold cleaned_path, joinpath, parent. apply List.removelast_last. Qed.

End CleanedPath.

(** ** The locked-file fallback *)

(** C4, as stated, fails on the extension: for the locked [data.txt] the
    reduced table goes to [data_cleaned.csv], not to a sibling with the
    original's extension. *)
Lemma fallback_extension_is_csv :
  suffix ["data.txt"] = ".txt"
  /\ snd (Pruner.remove_null_columns ["data.txt"] true locked_txt_world) = Ok (Some (2, 1, 1))
  /\ files (fst (Pruner.remove_null_columns ["data.txt"] true locked_txt_world))
       !! ["data_cleaned.csv"]
     = Some (CsvFile (mkCsv ["id"] [["1"]; ["2"]]))
  /\ files (fst (Pruner.remove_null_columns ["data.txt"] true locked_txt_world))
       !! ["data_cleaned.txt"] = None.
Proof. vm_compute. repeat split; reflexivity. Qed.

(** C4, amended.  When an in-place prune with a non-empty removal set finds
    the original path refused with [PermissionError], and the sibling
    [<stem>_cleaned.csv] can be written, the reduced table is stored there,
    the call returns its triple, and the original and every other file keep
    their contents.  The sibling's extension is always [.csv]: the original's
    extension exactly when that is [.csv]. *)
Theorem locked_file_falls_back (w : World) (p : path) (t : csv_text)
    (df df' : DataFrame) (c : string) (l : list string) :
  files w !! p = Some (CsvFile t) ->
  read_csv t = Ok df ->
  Pruner.cols_to_drop df = Ok (c :: l) ->
  drop df (c :: l) = Ok df' ->
  wfail w !! p = Some PermissionError ->
  wfail w !! Pruner.cleaned_path p = None ->
  let w' := fst (Pruner.remove_null_columns p true w) in
  snd (Pruner.remove_null_columns p true w)
    = Ok (Some (length (columns df), length (columns df'), length (c :: l)))
  /\ files w' !! Pruner.cleaned_path p = Some (CsvFile (to_csv df'))
  /\ files w' !! p = Some (CsvFile t)
  /\ (forall q, q <> Pruner.cleaned_path p -> files w' !! q = files w !! q)
  /\ parent (Pruner.cleaned_path p) = parent p
  /\ name (Pruner.cleaned_path p) = stem p +:+ "_cleaned.csv"
  /\ (suffix p = ".csv" -> name (Pruner.cleaned_path p) = stem p +:+ "_cleaned" +:+ suffix p).
Proof.
  intros Hsome Hread Hdrop Hdf' Hw Hc w'. subst w'.
  rewrite (run_fallback w p t df df' c l Hsome Hread Hdrop Hdf' Hw Hc).
  cbn [fst snd stored files].
  split; [reflexivity|]. split; [apply lookup_insert_eq|].
  split; [rewrite lookup_insert_ne by apply cleaned_path_differs; exact Hsome|].
  split; [intros q Hq; apply lookup_insert_ne; congruence|].
  split; [apply cleaned_path_parent|].
  split; [apply cleaned_path_name|].
  intros Hsuf. rewrite cleaned_path_name, Hsuf. reflexivity.
Qed.

Lemma locked_survey_falls_back :
  snd (Pruner.remove_null_columns ["d"; "survey.csv"] true locked_csv_world)
    = Ok (Some (2, 1, 1))
  /\ files (fst (Pruner.remove_null_columns ["d"; "survey.csv"] true locked_csv_world))
       !! ["d"; "survey_cleaned.csv"]
     = Some (CsvFile (mkCsv ["id"] [["1"]; ["2"]]))
  /\ files (fst (Pruner.remove_null_columns ["d"; "survey.csv"] true locked_csv_world))
       !! ["d"; "survey.csv"]
     = Some (CsvFile sparse_text).
Proof.
  pose proof (locked_file_falls_back locked_csv_world ["d"; "survey.csv"] sparse_text
    (mkDataFrame 2 [("id", [Str "1"; Str "2"]); ("notes", [NaN; NaN])])
    (mkDataFrame 2 [("id", [Str "1"; Str "2"])]) "notes" []) as H.
  cbv zeta in H.
  destruct H as (H1 & H2 & H3 & _); try (vm_compute; reflexivity).
  split; [exact H1|]. split; [exact H2|exact H3].
Defined.

(** ** A missing file in the directory-level pass *)

(** C10.  On a path that does not exist the single-file pruner prints its
    message and returns [None], raising nothing; the turn of the
    directory-level loop for that file then leaves all four counters as they
    were. *)
Theorem missing_file_is_skipped (w : World) (p : path) (inplace : bool)
    (acc : Pruner.counters) :
  files w !! p = None ->
  Pruner.remove_null_columns p inplace w = (emit w [MsgFileNotFound p], Ok None)
  /\ Pruner.process_one acc p w = (emit w [MsgFileNotFound p], Ok acc).
Proof.
  intros Hnone. split.
  - apply run_missing. exact Hnone.
  - unfold Pruner.process_one, try_except, bind.
    rewrite (run_missing w p true Hnone). reflexivity.
Qed.

Lemma missing_file_in_dangling_world :
  Pruner.remove_null_columns ["d"; "gone.csv"] true dangling_world
    = (emit dangling_world [MsgFileNotFound ["d"; "gone.csv"]], Ok None)
  /\ Pruner.process_one (Pruner.mkCounters 4 20 2 1) ["d"; "gone.csv"] dangling_world
    = (emit dangling_world [MsgFileNotFound ["d"; "gone.csv"]],
       Ok (Pruner.mkCounters 4 20 2 1)).
Proof.
  apply (missing_file_is_skipped dangling_world ["d"; "gone.csv"] true
           (Pruner.mkCounters 4 20 2 1)).
  reflexivity.
Defined.

(** ** Batch tallies *)

(** C5, as stated, fails for the pruning pass: one file is discovered, it
    does not exist when its turn comes, and the summary reports no success
    and no failure. *)
Lemma dangling_entry_is_not_tallied :
  snd (rglob ["d"] ".csv" dangling_world) = Ok [["d"; "gone.csv"]]
  /\ stdout (fst (Pruner.process_folder ["d"] true dangling_world))
     = [MsgFoundCsv 1; MsgFileNotFound ["d"; "gone.csv"]; MsgPruneSummary 0 0 0 0].
Proof. vm_compute. split; reflexivity. Qed.

Section Tallies.
Import Pruner.

(** A run of the pruner stores at most one file and deletes none; it
    returns [None] only for a missing file. *)
Lemma run_in_place_outcome (w : World) (p : path) :
  (files (fst (remove_null_columns p true w)) = files w
   \/ exists q c, files (fst (remove_null_columns p true w)) = <[q := c]> (files w))
  /\ (snd (remove_null_columns p true w) = Ok None -> files w !! p = None).
Proof.
  unfold remove_null_columns.
  destruct (files w !! p) as [c|] eqn:Hp.
  - file_exists Hp. branches; run; (split; [eauto|try discriminate]).
  - run. rewrite Hp. rewrite bool_decide_eq_false_2 by (intros [x Hx]; discriminate).
    run. split; [left; reflexivity|reflexivity].
Qed.

Lemma keeps_files_refl (w : World) : keeps_files w w.
Proof. intros q Hq. exact Hq. Qed.

Lemma keeps_files_trans (w1 w2 w3 : World) :
  keeps_files w1 w2 -> keeps_files w2 w3 -> keeps_files w1 w3.
Proof. intros H12 H23 q Hq. apply H23, H12, Hq. Qed.

(** One turn of the loop never raises; it tallies an existing file once and
    a missing one not at all. *)
Lemma process_one_outcome (w : World) (p : path) (acc : counters) :
  exists w' acc',
    process_one acc p w = (w', Ok acc')
    /\ keeps_files w w'
    /\ ((files w !! p = None /\ acc' = acc)
        \/ (is_Some (files w !! p) /\ tally acc' = tally acc + 1)).
Proof.
  pose proof (run_in_place_outcome w p) as [Hfiles Hnone].
  unfold process_one, try_except, bind.
  destruct (remove_null_columns p true w) as [w1 r] eqn:Erun.
  cbn [fst snd] in Hfiles, Hnone.
  assert (Hkeep : keeps_files w w1).
  { intros q Hq. destruct Hfiles as [->|(q' & c' & ->)]; [exact Hq|].
    destruct (decide (q' = q)) as [->|Hne].
    - rewrite lookup_insert_eq. eexists; reflexivity.
    - rewrite lookup_insert_ne by exact Hne. exact Hq. }
  assert (Hexists : r <> Ok None -> is_Some (files w !! p)).
  { intros Hr. destruct (files w !! p) as [c|] eqn:Hp; [eexists; reflexivity|].
    rewrite (run_missing w p true Hp) in Erun. inversion Erun; subst. contradiction. }
  destruct r as [[[[o rem] k]|]|e].
  - eexists _, _. split; [reflexivity|]. split; [exact Hkeep|].
    right. split; [apply Hexists; discriminate|]. unfold tally. cbn. lia.
  - eexists _, _. split; [reflexivity|]. split; [exact Hkeep|].
    left. split; [apply Hnone; reflexivity|reflexivity].
  - cbn [any_exception]. unfold print, ret. cbn [fst snd].
    eexists _, _. split; [reflexivity|]. split.
    + intros q Hq. cbn [files]. apply Hkeep. exact Hq.
    + right. split; [apply Hexists; discriminate|]. unfold tally. cbn. lia.
Qed.

Lemma process_files_outcome (l : list path) : forall (w : World) (acc : counters),
  exists w' acc',
    process_files l acc w = (w', Ok acc')
    /\ keeps_files w w'
    /\ tally acc' <= tally acc + length l
    /\ ((forall q, In q l -> is_Some (files w !! q)) -> tally acc' = tally acc + length l).
Proof.
  induction l as [|p l IH]; intros w acc.
  - exists w, acc. split; [reflexivity|]. split; [apply keeps_files_refl|].
    split; [cbn; lia|]. intros _. cbn. lia.
  - destruct (process_one_outcome w p acc) as (w1 & acc1 & Hone & Hkeep1 & Hcount).
    destruct (IH w1 acc1) as (w2 & acc2 & Hrest & Hkeep2 & Hle & Heq).
    exists w2, acc2. split.
    + cbn [process_files]. unfold bind. rewrite Hone. exact Hrest.
    + split; [exact (keeps_files_trans _ _ _ Hkeep1 Hkeep2)|]. split.
      * cbn [length]. destruct Hcount as [[_ ->]|[_ Hplus]]; lia.
      * intros Hall. cbn [length].
        assert (Hrest_all : forall q, In q l -> is_Some (files w1 !! q)).
        { intros q Hq. apply Hkeep1. apply Hall. right. exact Hq. }
        specialize (Heq Hrest_all).
        destruct Hcount as [[Hmissing _]|[_ Hplus]].
        -- specialize (Hall p (or_introl eq_refl)). rewrite Hmissing in Hall.
           destruct Hall as [x Hx]. discriminate.
        -- lia.
Qed.

Lemma convert_step_outcome (input_path : path) (output_folder : option path)
    (acc : nat * nat) (p : path) (w : World) :
  exists w' acc',
    Converter.convert_step input_path output_folder acc p w = (w', Ok acc')
    /\ fst acc' + snd acc' = fst acc + snd acc + 1.
Proof.
  unfold Converter.convert_step, try_except, bind.
  destruct (Converter.convert_one input_path output_folder p w) as [w1 [csv|e]].
  - eexists _, _. split; [reflexivity|]. cbn. lia.
  - cbn [any_exception]. unfold print, ret. eexists _, _. split; [reflexivity|]. cbn. lia.
Qed.

Lemma convert_files_outcome (input_path : path) (output_folder : option path)
    (l : list path) : forall (w : World) (acc : nat * nat),
  exists w' acc',
    Converter.convert_files input_path output_folder l acc w = (w', Ok acc')
    /\ fst acc' + snd acc' = fst acc + snd acc + length l.
Proof.
  induction l as [|p l IH]; intros w acc.
  - exists w, acc. split; [reflexivity|]. cbn. lia.
  - destruct (convert_step_outcome input_path output_folder acc p w)
      as (w1 & acc1 & Hone & Hcount).
    destruct (IH w1 acc1) as (w2 & acc2 & Hrest & Heq).
    exists w2, acc2. split.
    + cbn [Converter.convert_files]. unfold bind. rewrite Hone. exact Hrest.
    + cbn [length]. lia.
Qed.

End Tallies.

(** C5, amended.  Both batch runs end normally.  The Converter's summary,
    printed last whenever a file was discovered, carries a successful and a
    failed count whose sum is the number of discovered files.  The pruning
    pass's summary carries counts whose sum is at most that number, and
    equal to it when every discovered file exists; a discovered path with
    no file behind it is tallied as neither. *)
Theorem batch_tallies (w : World) :
  (forall input_path output_folder,
      snd (Converter.convert_dta_to_csv input_path output_folder w) = Ok tt
      /\ (dta_files_of input_path w = []
          \/ exists pre s f,
               stdout (fst (Converter.convert_dta_to_csv input_path output_folder w))
                 = pre ++ [MsgConvertSummary s f (length (dta_files_of input_path w))]
               /\ s + f = length (dta_files_of input_path w)))
  /\ (forall folder recursive,
      snd (Pruner.process_folder folder recursive w) = Ok tt
      /\ (csv_files_of folder recursive w = []
          \/ exists pre s f removed original,
               stdout (fst (Pruner.process_folder folder recursive w))
                 = pre ++ [MsgPruneSummary s f removed original]
               /\ s + f <= length (csv_files_of folder recursive w)
               /\ ((forall q, In q (csv_files_of folder recursive w) -> is_Some (files w !! q))
                   -> s + f = length (csv_files_of folder recursive w)))).
Proof.
  split.
  - intros input_path output_folder.
    unfold Converter.convert_dta_to_csv, Converter.discover, bind, rglob, ret.
    cbn [fst snd]. fold (dta_files_of input_path w).
    destruct (dta_files_of input_path w) as [|p l] eqn:Hfound.
    + split; [reflexivity|]. left. reflexivity.
    + unfold print. cbn [fst snd].
      destruct (convert_files_outcome input_path output_folder (p :: l)
                  (mkWorld (files w) (listing w) (wfail w) (case_sensitive w)
                     (stdout w ++ [MsgFoundDta (length (p :: l))])) (0, 0))
        as (w' & acc' & Hrun & Hcount).
      rewrite Hrun. cbn [fst snd stdout].
      split; [reflexivity|]. right.
      exists (stdout w'), (fst acc'), (snd acc'). split; [reflexivity|].
      cbn [fst snd] in Hcount. lia.
  - intros folder recursive.
    unfold Pruner.process_folder, bind.
    assert (Hglob : (if recursive then rglob folder ".csv" else glob folder ".csv") w
                    = (w, Ok (csv_files_of folder recursive w))).
    { unfold csv_files_of. destruct recursive; reflexivity. }
    rewrite Hglob.
    destruct (csv_files_of folder recursive w) as [|p l] eqn:Hfound.
    + split; [reflexivity|]. left. reflexivity.
    + unfold print. cbn [fst snd].
      destruct (process_files_outcome (p :: l)
                  (mkWorld (files w) (listing w) (wfail w) (case_sensitive w)
                     (stdout w ++ [MsgFoundCsv (length (p :: l))]))
                  (Pruner.mkCounters 0 0 0 0))
        as (w' & acc' & Hrun & _ & Hle & Heq).
      rewrite Hrun. cbn [fst snd stdout].
      split; [reflexivity|]. right.
      exists (stdout w'), (Pruner.successful acc'), (Pruner.failed acc'),
        (Pruner.total_removed acc'), (Pruner.total_original acc').
      split; [reflexivity|]. unfold tally in *. cbn in Hle, Heq. cbn [length].
      split; [lia|]. intros Hall. apply Heq. exact Hall.
Qed.

(** ** The reader's column labels *)

Section Renaming.

Lemma append_inj_r (a b c : string) : a +:+ b = a +:+ c -> b = c.
Proof.
  induction a as [|x a IH]; intros H.
  - exact H.
  - apply IH. change (String x (a +:+ b) = String x (a +:+ c)) in H. congruence.
Qed.

Lemma show_nat_inj (a b : nat) : show_nat a = show_nat b -> a = b.
Proof.
  unfold show_nat. intros H.
  apply (f_equal NilEmpty.uint_of_string) in H. rewrite !NilEmpty.usu in H.
  inversion H as [H']. apply (f_equal Nat.of_uint) in H'.
  rewrite !Unsigned.of_to in H'. exact H'.
Qed.

Lemma candidate_inj (old_col : string) (a b : nat) :
  candidate old_col a = candidate old_col b -> a = b.
Proof.
  unfold candidate. intros H. apply append_inj_r in H. apply append_inj_r in H.
  apply show_nat_inj. exact H.
Qed.

Lemma candidate_nonempty (old_col : string) (k : nat) : candidate old_col k <> "".
Proof.
  unfold candidate. intros H. apply (f_equal String.length) in H.
  rewrite !length_append in H. cbn [String.length] in H. lia.
Qed.

Lemma counts_get_insert_eq (counts : gmap string nat) (k : string) (v : nat) :
  counts_get (<[k := v]> counts) k = v.
Proof. unfold counts_get. rewrite lookup_insert_eq. reflexivity. Qed.

Lemma counts_get_insert_ne (counts : gmap string nat) (k x : string) (v : nat) :
  k <> x -> counts_get (<[k := v]> counts) x = counts_get counts x.
Proof. intros Hne. unfold counts_get. rewrite lookup_insert_ne by exact Hne. reflexivity. Qed.

Lemma counted_in_insert (counts : gmap string nat) (hdr : list string) (k : string) (v : nat) :
  counted_in counts hdr -> k ∈ hdr -> counted_in (<[k := v]> counts) hdr.
Proof.
  intros Hc Hk x Hx. destruct (decide (k = x)) as [<-|Hne]; [exact Hk|].
  rewrite counts_get_insert_ne in Hx by exact Hne. apply Hc. exact Hx.
Qed.

(** The renaming loop ends within its bound, on a candidate that is not a
    name of the header and has no count. *)
Lemma mangle_while_spec (old_col : string) (hdr : list string) :
  old_col ∈ hdr ->
  forall (fuel cur : nat) (counts : gmap string nat) (seen : list string),
    counted_in counts hdr ->
    List.NoDup seen ->
    List.incl seen hdr ->
    (forall s, In s seen -> exists k, k < cur /\ s = candidate old_col k) ->
    length hdr < fuel + length seen ->
    exists k v,
      mangle_while fuel old_col cur counts hdr
        = Some (candidate old_col k, 0, <[old_col := v]> counts)
      /\ (candidate old_col k ∉ hdr)
      /\ 0 < v.
Proof.
  intros Hold fuel. induction fuel as [|fuel IH]; intros cur counts seen Hc Hnd Hincl Hseen Hlen.
  - pose proof (NoDup_incl_length Hnd Hincl). lia.
  - cbn [mangle_while]. fold (candidate old_col cur).
    destruct (bool_decide (candidate old_col cur ∈ hdr)) eqn:Hin.
    + apply bool_decide_eq_true_1 in Hin.
      replace (0 <? cur + 1) with true by (symmetry; apply Nat.ltb_lt; lia).
      assert (Hfresh : ~ In (candidate old_col cur) seen).
      { intros Hs. destruct (Hseen _ Hs) as (k & Hk & Heq).
        apply candidate_inj in Heq. lia. }
      destruct (IH (cur + 1) (<[old_col := cur + 1]> counts) (candidate old_col cur :: seen))
        as (k & v & Hrun & Hout & Hv).
      * apply counted_in_insert; assumption.
      * apply List.NoDup_cons; assumption.
      * intros s [<-|Hs]; [apply list_elem_of_In; exact Hin|apply Hincl; exact Hs].
      * intros s [<-|Hs]; [exists cur; split; [lia|reflexivity]|].
        destruct (Hseen s Hs) as (k & Hk & Heq). exists k. split; [lia|exact Heq].
      * cbn [length]. lia.
      * exists k, v. rewrite Hrun. rewrite insert_insert_eq. split; [reflexivity|].
        split; assumption.
    + apply bool_decide_eq_false_1 in Hin.
      assert (Hzero : counts_get (<[old_col := cur + 1]> counts) (candidate old_col cur) = 0).
      { destruct (counts_get (<[old_col := cur + 1]> counts) (candidate old_col cur)) eqn:Hg;
          [reflexivity|].
        exfalso. apply Hin. apply (counted_in_insert counts hdr old_col (cur + 1) Hc Hold).
        rewrite Hg. lia. }
      rewrite Hzero. cbn [Nat.ltb Nat.leb].
      exists cur, (cur + 1). split; [reflexivity|]. split; [exact Hin|lia].
Qed.

Lemma mangled_counted_in (done : list nat) (hdr : list string) (counts : gmap string nat) :
  mangled done hdr counts -> counted_in counts hdr.
Proof.
  intros (Hc & _ & _) x Hx. apply Hc in Hx as (i & _ & Hi).
  apply list_elem_of_lookup. exists i. exact Hi.
Qed.

Lemma mangle_step_spec (done : list nat) (hdr : list string) (counts : gmap string nat)
    (i : nat) (col : string) :
  mangled done hdr counts ->
  ~ In i done ->
  hdr !! i = Some col ->
  exists hdr' counts',
    mangle_step (hdr, counts) i = Some (hdr', counts')
    /\ mangled (i :: done) hdr' counts'
    /\ length hdr' = length hdr
    /\ (forall j, j <> i -> hdr' !! j = hdr !! j)
    /\ (counts_get counts col = 0 -> hdr' = hdr).
Proof.
  intros Hm Hi Hcol. pose proof Hm as (Hc & Hd & Hne).
  assert (Hlt : i < length hdr) by (apply lookup_lt_is_Some; eexists; exact Hcol).
  assert (Hcolin : col ∈ hdr) by (apply list_elem_of_lookup; exists i; exact Hcol).
  unfold mangle_step. rewrite Hcol.
  destruct (0 <? counts_get counts col) eqn:Hcur.
  - apply Nat.ltb_lt in Hcur.
    destruct (mangle_while_spec col hdr Hcolin (S (length hdr)) (counts_get counts col)
                counts [] (mangled_counted_in _ _ _ Hm) (List.NoDup_nil _)
                (List.incl_nil_l _))
      as (k & v & Hrun & Hfresh & Hv).
    { intros s []. }
    { cbn [length]. lia. }
    rewrite Hrun.
    assert (Hcand_ne : candidate col k <> col).
    { intros Heq. apply Hfresh. rewrite Heq. exact Hcolin. }
    eexists _, _. split; [reflexivity|]. split; [|split; [apply length_insert|split]].
    + split; [|split].
      * intros x. destruct (decide (candidate col k = x)) as [<-|Hx].
        -- rewrite counts_get_insert_eq. split; [intros _|intros _; lia].
           exists i. split; [left; reflexivity|]. apply list_lookup_insert_eq. exact Hlt.
        -- rewrite counts_get_insert_ne by exact Hx. split.
           ++ intros Hpos.
              assert (Hold : 0 < counts_get counts x).
              { destruct (decide (col = x)) as [<-|Hcx]; [exact Hcur|].
                rewrite counts_get_insert_ne in Hpos by exact Hcx. exact Hpos. }
              apply Hc in Hold as (j & Hj & Hjx). exists j. split; [right; exact Hj|].
              rewrite list_lookup_insert_ne by (intros ->; contradiction). exact Hjx.
           ++ intros (j & [<-|Hj] & Hjx).
              ** rewrite list_lookup_insert_eq in Hjx by exact Hlt. congruence.
              ** rewrite list_lookup_insert_ne in Hjx by (intros ->; contradiction).
                 assert (Hold : 0 < counts_get counts x) by (apply Hc; exists j; split; assumption).
                 destruct (decide (col = x)) as [<-|Hcx].
                 --- rewrite counts_get_insert_eq. exact Hv.
                 --- rewrite counts_get_insert_ne by exact Hcx. exact Hold.
      * intros a b x [<-|Ha] [<-|Hb] Hax Hbx; [reflexivity| | |].
        -- rewrite list_lookup_insert_eq in Hax by exact Hlt.
           rewrite list_lookup_insert_ne in Hbx by (intros ->; contradiction).
           exfalso. apply Hfresh. apply list_elem_of_lookup. exists b. congruence.
        -- rewrite list_lookup_insert_eq in Hbx by exact Hlt.
           rewrite list_lookup_insert_ne in Hax by (intros ->; contradiction).
           exfalso. apply Hfresh. apply list_elem_of_lookup. exists a. congruence.
        -- rewrite list_lookup_insert_ne in Hax by (intros ->; contradiction).
           rewrite list_lookup_insert_ne in Hbx by (intros ->; contradiction).
           exact (Hd a b x Ha Hb Hax Hbx).
      * intros x Hx. apply list_elem_of_lookup in Hx as (j & Hj).
        apply list_lookup_insert_Some in Hj as [(_ & <- & _)|(_ & Hj)].
        -- apply candidate_nonempty.
        -- apply Hne. apply list_elem_of_lookup. exists j. exact Hj.
    + intros j Hj. apply list_lookup_insert_ne. congruence.
    + intros Hzero. lia.
  - apply Nat.ltb_ge in Hcur. assert (Hzero : counts_get counts col = 0) by lia.
    rewrite (list_insert_id hdr i col Hcol).
    eexists _, _. split; [reflexivity|]. split; [|split; [reflexivity|split; [reflexivity|reflexivity]]].
    split; [|split].
    + intros x. destruct (decide (col = x)) as [<-|Hx].
      * rewrite counts_get_insert_eq. split; [intros _|intros _; lia].
        exists i. split; [left; reflexivity|exact Hcol].
      * rewrite counts_get_insert_ne by exact Hx. rewrite Hc. split.
        -- intros (j & Hj & Hjx). exists j. split; [right; exact Hj|exact Hjx].
        -- intros (j & [<-|Hj] & Hjx); [congruence|]. exists j. split; assumption.
    + intros a b x [<-|Ha] [<-|Hb] Hax Hbx; [reflexivity| | |].
      * exfalso. assert (0 < counts_get counts col); [|lia].
        apply Hc. exists b. split; [exact Hb|congruence].
      * exfalso. assert (0 < counts_get counts col); [|lia].
        apply Hc. exists a. split; [exact Ha|congruence].
      * exact (Hd a b x Ha Hb Hax Hbx).
    + exact Hne.
Qed.

Lemma mangled_ext (d1 d2 : list nat) (hdr : list string) (counts : gmap string nat) :
  (forall j, In j d1 <-> In j d2) -> mangled d1 hdr counts -> mangled d2 hdr counts.
Proof.
  intros Hext (Hc & Hd & Hne). split; [|split].
  - intros x. rewrite Hc. split; intros (i & Hi & Hx); exists i; (split; [apply Hext; exact Hi|exact Hx]).
  - intros i j x Hi Hj. apply Hd; apply Hext; assumption.
  - exact Hne.
Qed.

Lemma mangle_loop_spec (order : list nat) :
  forall (done : list nat) (hdr : list string) (counts : gmap string nat),
    mangled done hdr counts ->
    List.NoDup order ->
    (forall i, In i order -> ~ In i done /\ i < length hdr) ->
    exists hdr' counts',
      mangle_loop order (hdr, counts) = Some (hdr', counts')
      /\ mangled (order ++ done) hdr' counts'
      /\ length hdr' = length hdr
      /\ (List.NoDup hdr -> hdr' = hdr).
Proof.
  induction order as [|i order IH]; intros done hdr counts Hm Hnd Hord.
  - exists hdr, counts. split; [reflexivity|]. split; [exact Hm|]. split; reflexivity.
  - apply List.NoDup_cons_iff in Hnd as [Hi_order Hnd].
    destruct (Hord i (or_introl eq_refl)) as [Hi_done Hi_lt].
    destruct (lookup_lt_is_Some_2 hdr i Hi_lt) as [col Hcol].
    destruct (mangle_step_spec done hdr counts i col Hm Hi_done Hcol)
      as (hdr1 & counts1 & Hstep & Hm1 & Hlen1 & Hsame1 & Hid1).
    destruct (IH (i :: done) hdr1 counts1 Hm1 Hnd) as (hdr2 & counts2 & Hloop & Hm2 & Hlen2 & Hid2).
    { intros j Hj. destruct (Hord j (or_intror Hj)) as [Hj_done Hj_lt]. split.
      - intros [<-|Hd]; contradiction.
      - rewrite Hlen1. exact Hj_lt. }
    exists hdr2, counts2. split; [|split; [|split]].
    + cbn [mangle_loop]. rewrite Hstep. exact Hloop.
    + apply (mangled_ext (order ++ i :: done)); [|exact Hm2].
      intros j. rewrite !List.in_app_iff. cbn [In]. tauto.
    + rewrite Hlen2. exact Hlen1.
    + intros Hdistinct.
      assert (Hzero : counts_get counts col = 0).
      { destruct (counts_get counts col) eqn:Hg; [reflexivity|]. exfalso.
        destruct Hm as (Hc & _ & _).
        assert (Hpos : 0 < counts_get counts col) by lia.
        apply Hc in Hpos as (j & Hj & Hjx).
        apply NoDup_ListNoDup in Hdistinct.
        rewrite NoDup_alt in Hdistinct. rewrite (Hdistinct i j col Hcol Hjx) in Hi_done.
        contradiction. }
      specialize (Hid1 Hzero). subst hdr1. apply Hid2. exact Hdistinct.
Qed.

Lemma filter_split_Permutation {A : Type} (f : A -> bool) (l : list A) :
  Permutation (List.filter (fun x => negb (f x)) l ++ List.filter f l) l.
Proof.
  induction l as [|x l IH]; [constructor|].
  simpl. destruct (f x); simpl.
  - apply Permutation_sym. apply Permutation_cons_app. apply Permutation_sym. exact IH.
  - constructor. exact IH.
Qed.

Lemma col_loop_order_Permutation (fields : list string) :
  Permutation (col_loop_order fields) (seq 0 (length fields)).
Proof. unfold col_loop_order, unnamed_col_indices. apply filter_split_Permutation. Qed.

Lemma unnamed_nonempty (i : nat) : unnamed i <> "".
Proof. unfold unnamed. intros H. apply (f_equal String.length) in H.
  rewrite length_append in H. cbn [String.length] in H. lia. Qed.

Lemma fill_unnamed_nonempty (fields : list string) (x : string) :
  x ∈ fill_unnamed fields -> x <> "".
Proof.
  unfold fill_unnamed. intros Hx. apply list_elem_of_lookup in Hx as (i & Hi).
  rewrite list_lookup_imap in Hi. destruct (fields !! i) as [s|]; [|discriminate].
  cbn in Hi. inversion Hi as [Hx]. destruct (decide (s = "")); [apply unnamed_nonempty|assumption].
Qed.

Lemma fill_unnamed_id (fields : list string) :
  ~ In "" fields -> fill_unnamed fields = fields.
Proof.
  intros Hne. unfold fill_unnamed. apply list_eq. intros i.
  rewrite list_lookup_imap. destruct (fields !! i) as [s|] eqn:Hs; [|reflexivity].
  cbn. destruct (decide (s = "")) as [->|]; [|reflexivity].
  exfalso. apply Hne. apply list_elem_of_In. apply list_elem_of_lookup. exists i. exact Hs.
Qed.

(** The reader's renaming always ends, and yields as many names as the
    header has fields, pairwise distinct and none empty; a header of distinct
    non-empty names is left as it is. *)
Theorem mangle_total (fields : list string) :
  exists names,
    mangle_dupe_cols fields = Some names
    /\ length names = length fields
    /\ List.NoDup names
    /\ ~ In "" names
    /\ (List.NoDup fields -> ~ In "" fields -> names = fields).
Proof.
  unfold mangle_dupe_cols.
  pose proof (col_loop_order_Permutation fields) as Hperm.
  assert (Hlen0 : length (fill_unnamed fields) = length fields) by apply length_imap.
  destruct (mangle_loop_spec (col_loop_order fields) [] (fill_unnamed fields) ∅)
    as (names & counts & Hrun & Hm & Hlen & Hid).
  - split; [|split].
    + intros x. unfold counts_get. rewrite lookup_empty. cbn. split; [lia|].
      intros (i & [] & _).
    + intros i j x [].
    + apply fill_unnamed_nonempty.
  - apply (Permutation_NoDup (Permutation_sym Hperm)). apply seq_NoDup.
  - intros i Hi. split; [intros []|].
    apply (Permutation_in _ Hperm) in Hi. apply List.in_seq in Hi. rewrite Hlen0. lia.
  - rewrite Hrun. exists names. split; [reflexivity|]. split; [congruence|].
    destruct Hm as (_ & Hd & Hne). split; [|split].
    + apply NoDup_ListNoDup. apply NoDup_alt. intros i j x Hi Hj.
      assert (Hin : forall k, k < length names -> In k (col_loop_order fields ++ [])).
      { intros k Hk. rewrite List.app_nil_r. apply (Permutation_in _ (Permutation_sym Hperm)).
        apply List.in_seq. rewrite <- Hlen0, <- Hlen. lia. }
      apply (Hd i j x); [apply Hin|apply Hin|exact Hi|exact Hj].
      * apply lookup_lt_is_Some. eexists; exact Hi.
      * apply lookup_lt_is_Some. eexists; exact Hj.
    + intros Hin. apply (Hne ""); [|reflexivity]. apply list_elem_of_In. exact Hin.
    + intros Hnd Hnonempty. rewrite (fill_unnamed_id fields Hnonempty) in Hid.
      apply Hid. exact Hnd.
Qed.

End Renaming.

(** ** Frames the reader yields *)

Section LoadedFrames.
Import Pruner.

Lemma parse_field_clean (s : string) : clean_cell (parse_field s).
Proof.
  unfold parse_field. destruct (bool_decide (s ∈ STR_NA_VALUES)) eqn:H; cbn; [exact I|].
  apply bool_decide_eq_false_1 in H. exact H.
Qed.


Lemma frame_of_columns (labels : list string) (ls : list (list string)) :
  columns (frame_of labels ls) = labels.
Proof.
  unfold columns, frame_of. cbn [cols]. apply list_eq. intros i.
  change (map fst ?l) with (fst <$> l).
  rewrite list_lookup_fmap, list_lookup_imap. destruct (labels !! i); reflexivity.
Qed.

Lemma frame_of_loaded (labels : list string) (ls : list (list string)) :
  List.NoDup labels -> ~ In "" labels -> loaded (frame_of labels ls).
Proof.
  intros Hnd Hne. unfold loaded. rewrite frame_of_columns.
  split; [exact Hnd|]. split; [exact Hne|]. split.
  - unfold rectangular, frame_of. cbn [cols nrows]. apply List.Forall_forall.
    intros kv Hkv. apply list_elem_of_In, list_elem_of_lookup in Hkv as (j & Hj).
    rewrite list_lookup_imap in Hj. destruct (labels !! j); [|discriminate].
    cbn in Hj. inversion Hj; subst. cbn. apply List.length_map.
  - unfold frame_of. cbn [cols]. apply List.Forall_forall.
    intros kv Hkv. apply list_elem_of_In, list_elem_of_lookup in Hkv as (j & Hj).
    rewrite list_lookup_imap in Hj. destruct (labels !! j); [|discriminate].
    cbn in Hj. inversion Hj; subst. cbn. apply List.Forall_forall.
    intros c Hc. apply List.in_map_iff in Hc as (row & <- & _). apply parse_field_clean.
Qed.

(** Whatever the file, a frame the reader returns has distinct, non-empty
    labels, at least one column, and one clean cell per row in each. *)
Lemma read_csv_loaded (t : csv_text) (df : DataFrame) :
  read_csv t = Ok df ->
  loaded df /\ cols df <> [] /\ length (columns df) = length (header t)
  /\ nrows df = length (lines t).
Proof.
  unfold read_csv. destruct (header t) as [|h hs] eqn:Hh; [discriminate|].
  destruct (mangle_total (h :: hs)) as (names & Hm & Hlen & Hnd & Hne & _).
  rewrite Hm. destruct (forallb _ _); [|discriminate].
  intros Heq. inversion Heq; subst df. split; [apply frame_of_loaded; assumption|].
  split; [|split].
  - intros Hnil. apply (f_equal (@length _)) in Hnil. unfold frame_of in Hnil. cbn [cols] in Hnil.
    rewrite length_imap, Hlen in Hnil. discriminate.
  - rewrite frame_of_columns. exact Hlen.
  - reflexivity.
Qed.

Lemma read_csv_never_hits_bound (t : csv_text) : read_csv t <> Raise RenameBound.
Proof.
  unfold read_csv. destruct (header t) as [|h hs]; [discriminate|].
  destruct (mangle_total (h :: hs)) as (names & Hm & _). rewrite Hm.
  destruct (forallb _ _); discriminate.
Qed.









Lemma filter_Permutation_bool {A : Type} (f : A -> bool) (l l' : list A) :
  Permutation l l' -> Permutation (List.filter f l) (List.filter f l').
Proof.
  induction 1 as [|x l l' _ IH|x y l|l1 l2 l3 _ IH1 _ IH2]; cbn.
  - constructor.
  - destruct (f x); [constructor|]; exact IH.
  - destruct (f x), (f y); try reflexivity. constructor.
  - exact (Permutation_trans IH1 IH2).
Qed.

End LoadedFrames.

Section SecondRun.
Import Pruner.

(** What a run that returned a triple did. *)
Lemma run_returns_triple (w w1 : World) (p : path) (o r k : nat) :
  remove_null_columns p true w = (w1, Ok (Some (o, r, k))) ->
  exists t df,
    files w !! p = Some (CsvFile t) /\ read_csv t = Ok df /\ o = length (columns df)
    /\ ((k = 0 /\ r = o /\ cols_to_drop df = Ok [] /\ exists ms, w1 = emit w ms)
        \/ (0 < k /\ r = length (columns (kept df))
            /\ exists ms, w1 = stored w (output_path w p k) (CsvFile (to_csv (kept df))) ms)).
Proof.
  intros Hrun.
  destruct (files w !! p) as [c|] eqn:Hp.
  2: { rewrite (run_missing w p true Hp) in Hrun. discriminate. }
  destruct c as [t| | |].
  2-4: (erewrite run_unreadable in Hrun;
        [discriminate|exact Hp|unfold pd_read_csv; rewrite Hp; reflexivity]).
  destruct (read_csv t) as [df|e] eqn:Hread.
  2: { erewrite run_unreadable in Hrun; [discriminate|exact Hp|].
       unfold pd_read_csv. rewrite Hp. cbn. exact Hread. }
  exists t, df. split; [reflexivity|]. split; [exact Hread|].
  destruct (read_csv_loaded t df Hread) as ((Hnd & Hne & Hrect & Hclean) & _).
  pose proof (cols_to_drop_spec df Hnd Hrect) as Hdrop.
  pose proof (drop_qualifying df Hnd) as Hdf'. fold (kept df) in Hdf'.
  destruct (qualifying (cols df)) as [|c l] eqn:Hq.
  - rewrite (run_no_null_columns w p true t df Hp Hread Hdrop) in Hrun.
    inversion Hrun; subst. split; [reflexivity|]. left.
    split; [reflexivity|]. split; [reflexivity|]. split; [exact Hdrop|]. eexists; reflexivity.
  - destruct (wfail w !! p) as [e|] eqn:Hw.
    + destruct (decide (e = PermissionError)) as [->|He].
      * destruct (wfail w !! cleaned_path p) as [e'|] eqn:Hc.
        -- rewrite (run_fallback_refused w p t df _ c l e' Hp Hread Hdrop Hdf' Hw Hc) in Hrun.
           discriminate.
        -- rewrite (run_fallback w p t df _ c l Hp Hread Hdrop Hdf' Hw Hc) in Hrun.
           inversion Hrun; subst. split; [reflexivity|]. right.
           split; [cbn; lia|]. split; [reflexivity|].
           unfold output_path. cbn [length Nat.eqb]. rewrite Hw. eexists; reflexivity.
      * rewrite (run_write_refused w p t df _ c l e Hp Hread Hdrop Hdf' Hw He) in Hrun.
        discriminate.
    + rewrite (run_rewrites w p t df _ c l Hp Hread Hdrop Hdf' Hw) in Hrun.
      inversion Hrun; subst. split; [reflexivity|]. right.
      split; [cbn; lia|]. split; [reflexivity|].
      unfold output_path. cbn [length Nat.eqb]. rewrite Hw. eexists; reflexivity.
Qed.

End SecondRun.

(** ** Idempotence of the pruner *)



Example second_run_on_header_only :
  snd (Pruner.remove_null_columns ["d"; "empty.csv"] true header_only_world) = Ok (Some (2, 0, 2))
  /\ snd (Pruner.remove_null_columns ["d"; "empty.csv"] true
            (fst (Pruner.remove_null_columns ["d"; "empty.csv"] true header_only_world)))
     = Raise EmptyDataError.
Proof. vm_compute. split; reflexivity. Qed.

(** ** Evaluation of the columns of a loaded table *)

(** On a frame built by hand with a repeated label, indexing the counts by
    that label gives a sub-series, whose comparison has no truth value: the
    evaluation raises.  The reader never yields such a frame. *)
Example repeated_label_raises :
  Pruner.cols_to_drop (mkDataFrame 1 [("a", [NaN]); ("a", [Str "1"])]) = Raise ValueError.
Proof. reflexivity. Qed.

(** C3.  For every file the reader accepts, whatever its header (repeated
    names included: the reader renames them), the labels of the loaded frame
    are distinct and the per-column evaluation returns without raising.  A
    column's verdict depends on its own cells only, and evaluating the
    columns in any other order removes the same labels. *)
Theorem evaluation_succeeds_on_loaded (t : csv_text) (df : DataFrame) :
  read_csv t = Ok df ->
  List.NoDup (columns df)
  /\ Pruner.cols_to_drop df = Ok (qualifying (cols df))
  /\ (forall c cs, In (c, cs) (cols df) ->
        (In c (qualifying (cols df)) <-> Pruner.qualifies cs = true))
  /\ (forall cols', Permutation cols' (cols df) ->
        exists dropped',
          Pruner.cols_to_drop (mkDataFrame (nrows df) cols') = Ok dropped'
          /\ Permutation dropped' (qualifying (cols df))).
Proof.
  intros Hread.
  destruct (read_csv_loaded t df Hread) as ((Hnd & _ & Hrect & _) & _).
  split; [exact Hnd|]. split; [apply cols_to_drop_spec; assumption|]. split.
  - intros c cs Hin. apply in_qualifying; assumption.
  - intros cols' Hperm. exists (qualifying cols'). split.
    + apply cols_to_drop_spec.
      * unfold columns. cbn [cols].
        apply (Permutation_NoDup (Permutation_map fst (Permutation_sym Hperm))). exact Hnd.
      * unfold rectangular in *. cbn [cols nrows].
        apply (Permutation_Forall (Permutation_sym Hperm)). exact Hrect.
    + unfold qualifying. apply Permutation_map. apply filter_Permutation_bool. exact Hperm.
Qed.

(** The file with header [a, a] loads with labels [a], [a.1], and its
    evaluation succeeds. *)
Lemma evaluation_succeeds_on_repeated_header :
  read_csv repeated_header = Ok repeated_header_frame
  /\ List.NoDup (columns repeated_header_frame)
  /\ Pruner.cols_to_drop repeated_header_frame = Ok (qualifying (cols repeated_header_frame))
  /\ (forall c cs, In (c, cs) (cols repeated_header_frame) ->
        (In c (qualifying (cols repeated_header_frame)) <-> Pruner.qualifies cs = true))
  /\ (forall cols', Permutation cols' (cols repeated_header_frame) ->
        exists dropped',
          Pruner.cols_to_drop (mkDataFrame (nrows repeated_header_frame) cols') = Ok dropped'
          /\ Permutation dropped' (qualifying (cols repeated_header_frame))).
Proof.
  assert (Hread : read_csv repeated_header = Ok repeated_header_frame)
    by (vm_compute; reflexivity).
  split; [exact Hread|].
  exact (evaluation_succeeds_on_loaded repeated_header repeated_header_frame Hread).
Defined.

(** ** The Header Extractor *)

Section HeaderExtractor.
Import Extractor.

Lemma numbered_lines_length (names : list string) : forall i,
  length (numbered_lines i names) = length names.
Proof. induction names as [|c names IH]; intros i; cbn; [reflexivity|]. rewrite IH. reflexivity. Qed.

Lemma numbered_lines_lookup (names : list string) : forall i j col,
  names !! j = Some col ->
  numbered_lines i names !! j = Some (numbered_line (i + j) col).
Proof.
  induction names as [|c names IH]; intros i j col Hj; [discriminate|].
  destruct j as [|j].
  - change (Some c = Some col) in Hj. inversion Hj; subst. rewrite Nat.add_0_r. reflexivity.
  - change (names !! j = Some col) in Hj.
    change (numbered_lines (S i) names !! j = Some (numbered_line (i + S j) col)).
    rewrite (IH (S i) j col Hj). f_equal. f_equal. lia.
Qed.

(** A run of the extractor on an existing CSV file whose output can be written. *)
Lemma run_extract (w : World) (p : path) (output_file : option path) (t : csv_text)
    (names : list string) :
  files w !! p = Some (CsvFile t) ->
  header t <> [] ->
  mangle_dupe_cols (header t) = Some names ->
  wfail w !! output_of p output_file = None ->
  extract_column_names p output_file w
  = (stored w (output_of p output_file)
       (TextFile (String.concat "" (numbered_lines 1 names)))
       [MsgReadingColumns (name p); MsgExtracted (length names);
        MsgSavedTo (output_of p output_file)],
     Ok tt).
Proof.
  intros Hp Hhdr Hm Hw. unfold extract_column_names. file_exists Hp.
  unfold read_csv_header. destruct (header t) as [|h hs] eqn:Hh; [contradiction|].
  rewrite Hm. run. rewrite frame_of_columns. fold (output_of p output_file).
  rewrite Hw. run. unfold stored. rewrite <- !List.app_assoc. reflexivity.
Qed.

End HeaderExtractor.

(** C9, as stated, fails on a header with a repeated name: for the header
    [age, age] the second line written is ["2. age.1"], not ["2. age"]. *)
Lemma repeated_name_is_listed_renamed :
  files (fst (Extractor.extract_column_names ["d"; "t.csv"] None twice_age_world))
    !! ["d"; "t_columns.txt"]
  = Some (TextFile ("1. age" +:+ Extractor.newline +:+ "2. age.1" +:+ Extractor.newline)).
Proof. vm_compute. reflexivity. Qed.

(** C9, amended.  For an existing delimited text file with header fields
    [c1..cn] (n > 0) whose output path can be written, the extractor stores
    exactly [n] numbered entries, the [i]-th being ["{i}. {name_i}"] and a
    line break, 1-based and in column order, where [name_1..name_n] are the
    labels the reader gives the header: the header fields themselves when
    they are non-empty and pairwise distinct.  The data lines play no part:
    two files with the same header give the same output. *)
Theorem extractor_lists_reader_labels (w : World) (p : path) (output_file : option path)
    (t : csv_text) :
  files w !! p = Some (CsvFile t) ->
  header t <> [] ->
  wfail w !! output_of p output_file = None ->
  exists names,
    mangle_dupe_cols (header t) = Some names
    /\ length names = length (header t)
    /\ snd (Extractor.extract_column_names p output_file w) = Ok tt
    /\ files (fst (Extractor.extract_column_names p output_file w)) !! output_of p output_file
       = Some (TextFile (String.concat "" (Extractor.numbered_lines 1 names)))
    /\ length (Extractor.numbered_lines 1 names) = length (header t)
    /\ (forall i col, names !! i = Some col ->
          Extractor.numbered_lines 1 names !! i
          = Some (show_nat (S i) +:+ ". " +:+ col +:+ Extractor.newline))
    /\ (List.NoDup (header t) -> ~ In "" (header t) -> names = header t)
    /\ (forall w2 t2,
          files w2 !! p = Some (CsvFile t2) -> header t2 = header t ->
          wfail w2 !! output_of p output_file = None ->
          files (fst (Extractor.extract_column_names p output_file w2)) !! output_of p output_file
          = files (fst (Extractor.extract_column_names p output_file w)) !! output_of p output_file).
Proof.
  intros Hp Hhdr Hw.
  destruct (mangle_total (header t)) as (names & Hm & Hlen & _ & _ & Hid).
  exists names. split; [exact Hm|]. split; [exact Hlen|].
  rewrite (run_extract w p output_file t names Hp Hhdr Hm Hw). cbn [fst snd stored files].
  split; [reflexivity|]. split; [apply lookup_insert_eq|].
  split; [rewrite numbered_lines_length; exact Hlen|].
  split; [intros i col Hi; apply (numbered_lines_lookup names 1 i col Hi)|].
  split; [exact Hid|].
  intros w2 t2 Hp2 Hsame Hw2.
  assert (Hhdr2 : header t2 <> []) by (rewrite Hsame; exact Hhdr).
  rewrite <- Hsame in Hm.
  rewrite (run_extract w2 p output_file t2 names Hp2 Hhdr2 Hm Hw2). cbn [fst stored files].
  rewrite !lookup_insert_eq. reflexivity.
Qed.

Lemma extractor_on_three_columns :
  exists names,
    mangle_dupe_cols ["age"; "sex"; "weight"] = Some names
    /\ length names = 3
    /\ snd (Extractor.extract_column_names ["d"; "t.csv"] None three_columns_world) = Ok tt
    /\ files (fst (Extractor.extract_column_names ["d"; "t.csv"] None three_columns_world))
         !! ["d"; "t_columns.txt"]
       = Some (TextFile (String.concat "" (Extractor.numbered_lines 1 names)))
    /\ length (Extractor.numbered_lines 1 names) = 3
    /\ (forall i col, names !! i = Some col ->
          Extractor.numbered_lines 1 names !! i
          = Some (show_nat (S i) +:+ ". " +:+ col +:+ Extractor.newline))
    /\ (List.NoDup ["age"; "sex"; "weight"] -> ~ In "" ["age"; "sex"; "weight"]
        -> names = ["age"; "sex"; "weight"])
    /\ (forall w2 t2,
          files w2 !! ["d"; "t.csv"] = Some (CsvFile t2) ->
          header t2 = ["age"; "sex"; "weight"] ->
          wfail w2 !! ["d"; "t_columns.txt"] = None ->
          files (fst (Extractor.extract_column_names ["d"; "t.csv"] None w2))
            !! ["d"; "t_columns.txt"]
          = files (fst (Extractor.extract_column_names ["d"; "t.csv"] None three_columns_world))
              !! ["d"; "t_columns.txt"]).
Proof.
  apply (extractor_lists_reader_labels three_columns_world ["d"; "t.csv"] None
           (mkCsv ["age"; "sex"; "weight"] [["31"; "F"; "58.5"]])).
  - reflexivity.
  - discriminate.
  - reflexivity.
Defined.

(** The spec's example, evaluated: the three lines, whatever the data lines. *)
Example extractor_three_lines :
  files (fst (Extractor.extract_column_names ["d"; "t.csv"] None three_columns_world))
    !! ["d"; "t_columns.txt"]
  = Some (TextFile ("1. age" +:+ Extractor.newline +:+ "2. sex" +:+ Extractor.newline
                    +:+ "3. weight" +:+ Extractor.newline)).
Proof. vm_compute. reflexivity. Qed.

(** ** Further evaluations *)


(** The reader yields no frame with an empty-string cell: the empty field
    is one of its missing-value strings. *)
Lemma mixed_frame_is_not_loaded (t : csv_text) : read_csv t <> Ok mixed_frame.
Proof.
  intros Hread. destruct (read_csv_loaded t mixed_frame Hread) as ((_ & _ & _ & Hclean) & _).
  rewrite List.Forall_forall in Hclean.
  specialize (Hclean ("X", [NaN; Str ""]) (or_introl eq_refl)). cbn in Hclean.
  rewrite List.Forall_forall in Hclean.
  specialize (Hclean (Str "") (or_intror (or_introl eq_refl))). cbn in Hclean.
  apply Hclean. apply list_elem_of_In. left. reflexivity.
Qed.

(** A column all of whose fields in the file are blank or one of the
    reader's missing-value strings, in any mixture, is loaded as a column of
    markers. *)
Lemma missing_fields_load_as_markers (t : csv_text) (df : DataFrame) (c : string)
    (cs : list cell) (j : nat) :
  read_csv t = Ok df ->
  cols df !! j = Some (c, cs) ->
  (forall row, In row (lines t) -> default "" (row !! j) ∈ STR_NA_VALUES) ->
  forall x, In x cs -> x = NaN.
Proof.
  unfold read_csv. destruct (header t) as [|h hs]; [discriminate|].
  destruct (mangle_dupe_cols (h :: hs)) as [labels|]; [|discriminate].
  destruct (forallb _ _); [|discriminate].
  intros Heq Hj Hall x Hx. inversion Heq; subst df. clear Heq.
  unfold frame_of in Hj. cbn [cols] in Hj. rewrite list_lookup_imap in Hj.
  destruct (labels !! j) as [label|]; [|discriminate]. cbn in Hj.
  inversion Hj; subst c cs. clear Hj.
  apply List.in_map_iff in Hx as (row & <- & Hrow).
  unfold parse_field. rewrite bool_decide_eq_true_2 by (apply Hall; exact Hrow). reflexivity.
Qed.



(** A pruning pass over two existing files, one of them not delimited text:
    one success, one failure, two discovered. *)
Example pass_over_two_files :
  stdout (fst (Pruner.process_folder ["d"] true
                 (mkWorld {[ ["d"; "a.csv"] := CsvFile sparse_text; ["d"; "b.csv"] := Junk ]}
                    [["d"; "a.csv"]; ["d"; "b.csv"]] ∅ true [])))
  = [MsgFoundCsv 2;
     MsgProcessing "a.csv"; MsgOriginal 2 2; MsgRemoving 1; MsgRemoved 1 1;
     MsgProcessing "b.csv"; MsgPruneFailed "b.csv" ParserError;
     MsgPruneSummary 1 1 1 2].
Proof. vm_compute. reflexivity. Qed.

(** A conversion over a Stata file and a file that is not one. *)
Example conversion_of_two_files :
  stdout (fst (Converter.convert_dta_to_csv ["in"] None
                 (mkWorld {[ ["in"; "hh.dta"] := DtaFile small_frame; ["in"; "bad.dta"] := Junk ]}
                    [["in"; "hh.dta"]; ["in"; "bad.dta"]] ∅ true [])))
  = [MsgFoundDta 2;
     MsgProcessing "hh.dta"; MsgConverted "hh.csv" 2 2;
     MsgProcessing "bad.dta"; MsgConvertFailed "bad.dta" StataError;
     MsgConvertSummary 1 1 2].
Proof. vm_compute. reflexivity. Qed.

(** Where path matching folds case, both patterns find every Stata file:
    each is converted, and tallied, twice. *)
Example case_folding_discovers_twice :
  snd (Converter.discover ["in"]
         (mkWorld {[ ["in"; "hh.dta"] := DtaFile small_frame ]} [["in"; "hh.dta"]] ∅ false []))
  = Ok [["in"; "hh.dta"]; ["in"; "hh.dta"]].
Proof. vm_compute. reflexivity. Qed.

(** With no output directory and a base name without inner dots, the CSV
    file is the source's sibling [<stem>.csv]. *)
Lemma alongside_output_of_plain_name (w : World) (input_path dta_file csv_file : path) :
  stem dta_file <> "" ->
  suffix_of (stem dta_file) = "" ->
  snd (Converter.convert_one input_path None dta_file w) = Ok csv_file ->
  csv_file = joinpath (parent dta_file) (stem dta_file +:+ ".csv").
Proof.
  intros Hne Hplain. unfold Converter.convert_one. run.
  destruct (bool_decide (is_Some (files w !! dta_file))); [|discriminate]. run.
  destruct (files w !! dta_file) as [[| df | |]|]; run; try discriminate.
  unfold with_suffix. unfold name, parent, joinpath.
  rewrite List.last_last, List.removelast_last.
  destruct (decide (stem dta_file = "")) as [|_]; [contradiction|].
  rewrite Hplain. destruct (decide ("" = "")) as [_|Hc]; [|contradiction]. run.
  destruct (wfail w !! (removelast dta_file ++ [stem dta_file +:+ ".csv"])); run; [discriminate|].
  rewrite lookup_insert_eq. rewrite bool_decide_eq_true_2 by (eexists; reflexivity).
  intros Heq. inversion Heq. reflexivity.
Qed.

(** * Further properties of the three scripts *)

(** ** More on the single-file pruner *)

Section PrunerMore.

Lemma qualifying_nil_iff (l : list (string * list cell)) :
  qualifying l = [] <-> forall c cs, In (c, cs) l -> qualifies cs = false.
Proof.
  unfold qualifying. induction l as [|[c cs] l IH]; cbn.
  - split; [intros _ c cs []|reflexivity].
  - destruct (qualifies cs) eqn:Hq; cbn.
    + split; [discriminate|]. intros H. specialize (H c cs (or_introl eq_refl)). congruence.
    + rewrite IH. split.
      * intros H c' cs' [Heq|Hin]; [inversion Heq; subst; exact Hq|exact (H c' cs' Hin)].
      * intros H c' cs' Hin. apply (H c' cs'). right. exact Hin.
Qed.

Lemma filter_partition_length {A : Type} (f : A -> bool) (l : list A) :
  length l = length (List.filter (fun x => negb (f x)) l) + length (List.filter f l).
Proof.
  induction l as [|x l IH]; [reflexivity|]. cbn. destruct (f x); cbn; lia.
Qed.

Lemma kept_plus_qualifying (df : DataFrame) :
  length (columns df) = length (columns (kept df)) + length (qualifying (cols df)).
Proof.
  unfold columns, kept, qualifying. cbn [cols]. rewrite !List.length_map.
  apply (filter_partition_length (fun kv => qualifies (snd kv))).
Qed.

End PrunerMore.

(** X1: no-op.  When no column of the loaded table is all marker or all empty
    string, the pruner (in place or not) opens nothing for writing: it
    reports the message, returns [(n, n, 0)] and leaves the world's files,
    listing included, as they were -- also when the path is locked. *)
Theorem nothing_to_remove_leaves_file (w : World) (p : path) (inplace : bool)
    (t : csv_text) (df : DataFrame) :
  files w !! p = Some (CsvFile t) ->
  read_csv t = Ok df ->
  (forall c cs, In (c, cs) (cols df) -> qualifies cs = false) ->
  remove_null_columns p inplace w
  = (emit w [MsgProcessing (name p); MsgOriginal (len df) (length (columns df));
             MsgNoNullColumns],
     Ok (Some (length (columns df), length (columns df), 0))).
Proof.
  intros Hp Hread Hnone.
  destruct (read_csv_loaded t df Hread) as ((Hnd & _ & Hrect & _) & _).
  apply (run_no_null_columns w p inplace t df Hp Hread).
  rewrite (cols_to_drop_spec df Hnd Hrect). f_equal. apply qualifying_nil_iff. exact Hnone.
Qed.

Lemma nothing_to_remove_in_locked_dense :
  remove_null_columns ["d"; "dense.csv"] true dense_locked_world
  = (emit dense_locked_world
       [MsgProcessing "dense.csv"; MsgOriginal 2 2; MsgNoNullColumns],
     Ok (Some (2, 2, 0))).
Proof.
  apply (nothing_to_remove_leaves_file dense_locked_world ["d"; "dense.csv"] true dense_text
           (mkDataFrame 2 [("id", [Str "1"; Str "2"]); ("hb", [Str "11.2"; NaN])])).
  - reflexivity.
  - vm_compute. reflexivity.
  - intros c cs Hin. cbn in Hin. destruct Hin as [Heq|[Heq|[]]]; inversion Heq; subst; reflexivity.
Defined.

(** X2: in-place overwrite.  With a non-empty removal set and a writable
    original, the in-place pruner stores the reduced table at the original
    path and nowhere else: every other file is as before, no sibling appears;
    the triple counts the loaded, kept and removed columns. *)
Theorem in_place_overwrites_original (w : World) (p : path) (t : csv_text) (df : DataFrame) :
  files w !! p = Some (CsvFile t) ->
  read_csv t = Ok df ->
  qualifying (cols df) <> [] ->
  wfail w !! p = None ->
  snd (remove_null_columns p true w)
    = Ok (Some (length (columns df), length (columns (kept df)),
                length (qualifying (cols df))))
  /\ files (fst (remove_null_columns p true w)) = <[p := CsvFile (to_csv (kept df))]> (files w)
  /\ (forall q, q <> p -> files (fst (remove_null_columns p true w)) !! q = files w !! q).
Proof.
  intros Hp Hread Hq Hw.
  destruct (read_csv_loaded t df Hread) as ((Hnd & _ & Hrect & _) & _).
  pose proof (cols_to_drop_spec df Hnd Hrect) as Hdrop.
  pose proof (drop_qualifying df Hnd) as Hdf'. fold (kept df) in Hdf'.
  destruct (qualifying (cols df)) as [|c l] eqn:Hql; [contradiction|].
  rewrite (run_rewrites w p t df (kept df) c l Hp Hread Hdrop Hdf' Hw).
  cbn [fst snd stored files]. split; [reflexivity|]. split; [reflexivity|].
  intros q Hne. apply lookup_insert_ne. congruence.
Qed.

Lemma in_place_overwrites_survey :
  snd (remove_null_columns ["d"; "survey.csv"] true survey_world) = Ok (Some (2, 1, 1))
  /\ files (fst (remove_null_columns ["d"; "survey.csv"] true survey_world))
     = <[ ["d"; "survey.csv"] := CsvFile (mkCsv ["id"] [["1"]; ["2"]]) ]> (files survey_world)
  /\ (forall q, q <> ["d"; "survey.csv"] ->
        files (fst (remove_null_columns ["d"; "survey.csv"] true survey_world)) !! q
        = files survey_world !! q).
Proof.
  apply (in_place_overwrites_original survey_world ["d"; "survey.csv"] sparse_text
           (mkDataFrame 2 [("id", [Str "1"; Str "2"]); ("notes", [NaN; NaN])])).
  - reflexivity.
  - vm_compute. reflexivity.
  - discriminate.
  - reflexivity.
Defined.

(** X3: other write errors.  When opening the original for writing is
    refused with an error other than [PermissionError], the in-place pruner
    tries no sibling: the error propagates and no file changes; the
    directory-level loop prints it and counts the file as failed. *)
Theorem other_write_error_propagates (w : World) (p : path) (t : csv_text) (df : DataFrame)
    (e : exn) (acc : counters) :
  files w !! p = Some (CsvFile t) ->
  read_csv t = Ok df ->
  qualifying (cols df) <> [] ->
  wfail w !! p = Some e ->
  e <> PermissionError ->
  snd (remove_null_columns p true w) = Raise e
  /\ files (fst (remove_null_columns p true w)) = files w
  /\ snd (process_one acc p w)
     = Ok (mkCounters (total_removed acc) (total_original acc) (successful acc) (failed acc + 1))
  /\ files (fst (process_one acc p w)) = files w.
Proof.
  intros Hp Hread Hq Hw He.
  destruct (read_csv_loaded t df Hread) as ((Hnd & _ & Hrect & _) & _).
  pose proof (cols_to_drop_spec df Hnd Hrect) as Hdrop.
  pose proof (drop_qualifying df Hnd) as Hdf'.
  destruct (qualifying (cols df)) as [|c l] eqn:Hql; [contradiction|].
  pose proof (run_write_refused w p t df _ c l e Hp Hread Hdrop Hdf' Hw He) as Hrun.
  unfold process_one, try_except, bind. rewrite Hrun.
  cbn [fst snd emit files any_exception]. unfold print, ret. cbn [fst snd files].
  repeat split; reflexivity.
Qed.

Lemma disk_error_on_survey :
  snd (remove_null_columns ["d"; "survey.csv"] true disk_error_world) = Raise OtherOSError
  /\ files (fst (remove_null_columns ["d"; "survey.csv"] true disk_error_world))
     = files disk_error_world
  /\ snd (process_one (mkCounters 0 0 0 0) ["d"; "survey.csv"] disk_error_world)
     = Ok (mkCounters 0 0 0 1)
  /\ files (fst (process_one (mkCounters 0 0 0 0) ["d"; "survey.csv"] disk_error_world))
     = files disk_error_world.
Proof.
  apply (other_write_error_propagates disk_error_world ["d"; "survey.csv"] sparse_text
           (mkDataFrame 2 [("id", [Str "1"; Str "2"]); ("notes", [NaN; NaN])])
           OtherOSError (mkCounters 0 0 0 0)).
  - reflexivity.
  - vm_compute. reflexivity.
  - discriminate.
  - reflexivity.
  - discriminate.
Defined.

Section PrunerCounts.

(** What the triple of an in-place run counts. *)
Lemma run_triple_counts (w w1 : World) (p : path) (o r k : nat) :
  remove_null_columns p true w = (w1, Ok (Some (o, r, k))) ->
  exists t df,
    files w !! p = Some (CsvFile t) /\ read_csv t = Ok df
    /\ o = length (columns df)
    /\ r = length (columns (kept df))
    /\ k = length (qualifying (cols df)).
Proof.
  intros Hrun.
  destruct (run_returns_triple w w1 p o r k Hrun) as (t & df & Hp & Hread & Ho & Hcase).
  exists t, df. split; [exact Hp|]. split; [exact Hread|]. split; [exact Ho|].
  destruct (read_csv_loaded t df Hread) as ((Hnd & _ & Hrect & _) & _).
  pose proof (cols_to_drop_spec df Hnd Hrect) as Hdrop.
  pose proof (drop_qualifying df Hnd) as Hdf'. fold (kept df) in Hdf'.
  pose proof (kept_plus_qualifying df) as Hsum.
  destruct (qualifying (cols df)) as [|c l] eqn:Hq.
  - rewrite (run_no_null_columns w p true t df Hp Hread Hdrop) in Hrun.
    inversion Hrun; subst. cbn [length] in Hsum. split; [lia|reflexivity].
  - destruct Hcase as [(Hk0 & _ & Hdrop0 & _)|(Hk & Hr & _)].
    + rewrite Hdrop in Hdrop0. discriminate.
    + split; [exact Hr|].
      destruct (wfail w !! p) as [e|] eqn:Hw.
      * destruct (decide (e = PermissionError)) as [->|He].
        -- destruct (wfail w !! cleaned_path p) as [e'|] eqn:Hc.
           ++ rewrite (run_fallback_refused w p t df _ c l e' Hp Hread Hdrop Hdf' Hw Hc) in Hrun.
              discriminate.
           ++ rewrite (run_fallback w p t df _ c l Hp Hread Hdrop Hdf' Hw Hc) in Hrun.
              inversion Hrun; subst. reflexivity.
        -- rewrite (run_write_refused w p t df _ c l e Hp Hread Hdrop Hdf' Hw He) in Hrun.
           discriminate.
      * rewrite (run_rewrites w p t df _ c l Hp Hread Hdrop Hdf' Hw) in Hrun.
        inversion Hrun; subst. reflexivity.
Qed.

End PrunerCounts.

(** X4: the triple adds up.  Whenever the in-place pruner returns a triple
    [(original, remaining, removed)], the table had at least one column,
    [original = remaining + removed], and a run that removed nothing wrote
    nothing. *)
Theorem triple_adds_up (w w1 : World) (p : path) (o r k : nat) :
  remove_null_columns p true w = (w1, Ok (Some (o, r, k))) ->
  0 < o /\ o = r + k /\ (k = 0 -> files w1 = files w /\ listing w1 = listing w).
Proof.
  intros Hrun.
  destruct (run_triple_counts w w1 p o r k Hrun) as (t & df & Hp & Hread & -> & -> & ->).
  destruct (read_csv_loaded t df Hread) as (_ & Hcols & _).
  split; [|split].
  - unfold columns. rewrite List.length_map. destruct (cols df); [contradiction|cbn; lia].
  - apply kept_plus_qualifying.
  - intros Hk.
    destruct (run_returns_triple w w1 p _ _ _ Hrun) as (t' & df' & _ & _ & _ & Hcase).
    destruct Hcase as [(_ & _ & _ & ms & ->)|(Hpos & _)]; [split; reflexivity|lia].
Qed.

Lemma triple_of_survey_adds_up :
  0 < 2 /\ 2 = 1 + 1
  /\ (1 = 0 ->
      files (fst (remove_null_columns ["d"; "survey.csv"] true survey_world)) = files survey_world
      /\ listing (fst (remove_null_columns ["d"; "survey.csv"] true survey_world))
         = listing survey_world).
Proof.
  apply (triple_adds_up survey_world
           (fst (remove_null_columns ["d"; "survey.csv"] true survey_world))
           ["d"; "survey.csv"] 2 1 1).
  vm_compute. reflexivity.
Defined.

Lemma filter_none {A : Type} (f : A -> bool) (l : list A) :
  (forall x, In x l -> f x = true) -> List.filter (fun x => negb (f x)) l = [].
Proof.
  induction l as [|x l IH]; intros Hall; [reflexivity|]. cbn.
  rewrite (Hall x (or_introl eq_refl)). cbn. apply IH. intros y Hy. apply Hall. right. exact Hy.
Qed.

(** X5: no data rows.  For a file with a header and no data line, both
    whole-column tests compare a count of 0 with a length of 0: every column
    qualifies, and the pruner keeps none. *)
Theorem header_only_file_loses_every_column (t : csv_text) (df : DataFrame) :
  read_csv t = Ok df ->
  lines t = [] ->
  cols_to_drop df = Ok (columns df) /\ columns df <> [] /\ cols (kept df) = [].
Proof.
  intros Hread Hlines.
  destruct (read_csv_loaded t df Hread) as ((Hnd & _ & Hrect & _) & Hcols & _ & Hrows).
  rewrite Hlines in Hrows. cbn [length] in Hrows.
  assert (Hall : forall kv, In kv (cols df) -> qualifies (snd kv) = true).
  { intros kv Hkv. unfold rectangular in Hrect. rewrite List.Forall_forall in Hrect.
    specialize (Hrect kv Hkv). rewrite Hrows in Hrect.
    destruct (snd kv); [reflexivity|discriminate]. }
  split; [|split].
  - rewrite (cols_to_drop_spec df Hnd Hrect). f_equal. unfold qualifying, columns. f_equal.
    apply List.forallb_filter_id. apply List.forallb_forall. exact Hall.
  - unfold columns. destruct (cols df); [contradiction|discriminate].
  - unfold kept. cbn [cols]. apply filter_none. exact Hall.
Qed.

Lemma header_only_ab_loses_every_column :
  cols_to_drop (mkDataFrame 0 [("a", []); ("b", [])]) = Ok ["a"; "b"]
  /\ columns (mkDataFrame 0 [("a", []); ("b", [])]) <> []
  /\ cols (kept (mkDataFrame 0 [("a", []); ("b", [])])) = [].
Proof.
  apply (header_only_file_loses_every_column (mkCsv ["a"; "b"] [])
           (mkDataFrame 0 [("a", []); ("b", [])])).
  - vm_compute. reflexivity.
  - reflexivity.
Defined.

(** X6: values are never lost.  A column holding at least one value that is
    not the empty string is never among the dropped labels, and survives
    into the written frame with all of its cells, whatever else it holds. *)
Theorem column_with_value_is_kept (df : DataFrame) (c s : string) (cs : list cell) :
  List.NoDup (columns df) -> rectangular df ->
  In (c, cs) (cols df) ->
  In (Str s) cs -> s <> "" ->
  exists dropped,
    cols_to_drop df = Ok dropped
    /\ ~ In c dropped
    /\ In (c, cs) (cols (kept df)).
Proof.
  intros Hnd Hrect Hin Hs Hne.
  assert (Hq : qualifies cs = false).
  { unfold qualifies. apply orb_false_iff. split.
    - destruct (all_null cs) eqn:Hall; [|reflexivity].
      pose proof (proj1 (all_null_iff cs) Hall _ Hs). discriminate.
    - destruct (all_empty_string cs) eqn:Hall; [|reflexivity].
      pose proof (proj1 (all_empty_string_iff cs) Hall _ Hs). congruence. }
  exists (qualifying (cols df)). split; [apply cols_to_drop_spec; assumption|]. split.
  - intros Hc. apply (in_qualifying (cols df) c cs Hnd Hin) in Hc. congruence.
  - unfold kept. cbn [cols]. apply List.filter_In. split; [exact Hin|].
    cbn. rewrite Hq. reflexivity.
Qed.

Lemma sparse_column_of_abcd_is_kept :
  exists dropped,
    cols_to_drop abcd = Ok dropped
    /\ ~ In "C" dropped
    /\ In ("C", [NaN; Str "12.5"; NaN]) (cols (kept abcd)).
Proof.
  apply (column_with_value_is_kept abcd "C" "12.5" [NaN; Str "12.5"; NaN]
           abcd_labels_distinct abcd_rectangular).
  - cbn. right. right. left. reflexivity.
  - right. left. reflexivity.
  - discriminate.
Defined.

(** ** The directory-level pass, file by file *)

Section PassFrame.

(** An in-place run stores at most one file: the original or its sibling. *)
Lemma run_in_place_writes (w : World) (p : path) :
  files (fst (remove_null_columns p true w)) = files w
  \/ (exists c, files (fst (remove_null_columns p true w)) = <[p := c]> (files w))
  \/ (exists c, files (fst (remove_null_columns p true w)) = <[cleaned_path p := c]> (files w)).
Proof.
  unfold remove_null_columns.
  destruct (files w !! p) as [c|] eqn:Hp.
  - file_exists Hp. branches; run; eauto.
  - run. rewrite Hp. rewrite bool_decide_eq_false_2 by (intros [x Hx]; discriminate).
    run. left. reflexivity.
Qed.

Lemma process_one_frame (w : World) (p : path) (acc : counters) (q : path) :
  q <> p -> q <> cleaned_path p ->
  files (fst (process_one acc p w)) !! q = files w !! q.
Proof.
  intros Hp Hc. pose proof (run_in_place_writes w p) as Hw.
  unfold process_one, try_except, bind.
  destruct (remove_null_columns p true w) as [w1 r]. cbn [fst] in Hw.
  assert (Hq : files w1 !! q = files w !! q).
  { destruct Hw as [->|[(c & ->)|(c & ->)]]; [reflexivity| |];
      apply lookup_insert_ne; congruence. }
  destruct r as [[[[o rem] k]|]|e]; cbn [any_exception fst]; unfold print, ret; cbn [fst files];
    exact Hq.
Qed.

Lemma process_files_frame (l : list path) : forall (w : World) (acc : counters) (q : path),
  untouched_by l q ->
  files (fst (process_files l acc w)) !! q = files w !! q.
Proof.
  induction l as [|p l IH]; intros w acc q Hq; [reflexivity|].
  cbn [process_files]. unfold bind.
  destruct (process_one_outcome w p acc) as (w1 & acc1 & Hone & _).
  pose proof (process_one_frame w p acc q) as Hframe. rewrite Hone in *. cbn [fst] in Hframe.
  destruct (Hq p (or_introl eq_refl)) as [Hp Hc].
  rewrite IH by (intros p' Hp'; apply Hq; right; exact Hp').
  apply Hframe; assumption.
Qed.

End PassFrame.

(** X7: the pass is confined.  A pruning pass over a folder deletes no file,
    and leaves alone every path that is neither one of the discovered CSV
    files nor the [_cleaned] sibling of one. *)
Theorem pass_touches_only_discovered (w : World) (folder : path) (recursive : bool) :
  (forall q, is_Some (files w !! q) ->
     is_Some (files (fst (process_folder folder recursive w)) !! q))
  /\ (forall q, untouched_by (csv_files_of folder recursive w) q ->
        files (fst (process_folder folder recursive w)) !! q = files w !! q).
Proof.
  unfold process_folder, bind.
  assert (Hglob : (if recursive then rglob folder ".csv" else glob folder ".csv") w
                  = (w, Ok (csv_files_of folder recursive w))).
  { unfold csv_files_of. destruct recursive; reflexivity. }
  rewrite Hglob.
  destruct (csv_files_of folder recursive w) as [|p l] eqn:Hfound.
  - unfold print. cbn [fst files]. split; [intros q Hq; exact Hq|reflexivity].
  - unfold print. cbn [fst snd].
    set (w0 := mkWorld (files w) (listing w) (wfail w) (case_sensitive w)
                 (stdout w ++ [MsgFoundCsv (length (p :: l))])).
    destruct (process_files_outcome (p :: l) w0 (mkCounters 0 0 0 0))
      as (w' & acc' & Hrun & Hkeep & _).
    pose proof (process_files_frame (p :: l) w0 (mkCounters 0 0 0 0)) as Hframe.
    rewrite Hrun in *. cbn [fst files] in *. split.
    + intros q Hq. apply Hkeep. exact Hq.
    + intros q Hq. apply Hframe. exact Hq.
Qed.

Section Enumeration.

Lemma is_under_parent (p : path) : p <> [] -> is_under (parent p) p = true.
Proof.
  unfold parent. induction p as [|c p IH]; intros Hne; [contradiction|].
  destruct p as [|c' p'].
  - reflexivity.
  - change (removelast (c :: c' :: p')) with (c :: removelast (c' :: p')).
    cbn [is_under]. rewrite bool_decide_eq_true_2 by reflexivity. apply IH. discriminate.
Qed.

End Enumeration.

(** X8: the non-recursive pass.  With [recursive=False] the pass enumerates
    exactly those files of the recursive enumeration that lie directly in
    the folder, in the same order of the walk. *)
Theorem glob_is_rglob_at_depth_one (w : World) (folder : path) (p : path) :
  glob folder ".csv" w = (w, Ok (csv_files_of folder false w))
  /\ rglob folder ".csv" w = (w, Ok (csv_files_of folder true w))
  /\ (In p (csv_files_of folder false w)
      <-> In p (csv_files_of folder true w) /\ parent p = folder).
Proof.
  split; [reflexivity|]. split; [reflexivity|].
  unfold csv_files_of. rewrite !List.filter_In. split.
  - intros (Hin & Hcond). apply andb_true_iff in Hcond as [Hcond Hm].
    apply andb_true_iff in Hcond as [Hpar Hne].
    apply bool_decide_eq_true_1 in Hpar. apply bool_decide_eq_true_1 in Hne.
    split; [|exact Hpar]. split; [exact Hin|].
    rewrite <- Hpar, (is_under_parent p Hne). exact Hm.
  - intros ((Hin & Hcond) & Hpar). apply andb_true_iff in Hcond as [Hunder Hm].
    split; [exact Hin|]. rewrite Hm, andb_true_r.
    rewrite bool_decide_eq_true_2 by exact Hpar. cbn.
    apply bool_decide_eq_true_2. intros ->. destruct folder; discriminate.
Qed.

Section SummaryTotals.

Lemma triple_bounds (w w1 : World) (p : path) (o r k : nat) :
  remove_null_columns p true w = (w1, Ok (Some (o, r, k))) -> 0 < o /\ k <= o.
Proof.
  intros Hrun.
  destruct (run_triple_counts w w1 p o r k Hrun) as (t & df & Hp & Hread & -> & -> & ->).
  destruct (read_csv_loaded t df Hread) as (_ & Hcols & _).
  pose proof (kept_plus_qualifying df). split; [|lia].
  unfold columns. rewrite List.length_map. destruct (cols df); [contradiction|cbn; lia].
Qed.

Lemma process_one_totals (w : World) (p : path) (acc : counters) :
  totals_sound acc ->
  exists w' acc', process_one acc p w = (w', Ok acc') /\ totals_sound acc'.
Proof.
  intros [Hr Hs]. unfold process_one, try_except, bind.
  destruct (remove_null_columns p true w) as [w1 r] eqn:Hrun.
  destruct r as [[[[o rem] k]|]|e].
  - destruct (triple_bounds w w1 p o rem k Hrun) as [Ho Hk].
    eexists _, _. split; [reflexivity|]. unfold totals_sound. cbn. lia.
  - eexists _, _. split; [reflexivity|]. split; assumption.
  - cbn [any_exception]. unfold print, ret. eexists _, _. split; [reflexivity|].
    unfold totals_sound. cbn. lia.
Qed.

Lemma process_files_totals (l : list path) : forall (w : World) (acc : counters),
  totals_sound acc ->
  exists w' acc', process_files l acc w = (w', Ok acc') /\ totals_sound acc'.
Proof.
  induction l as [|p l IH]; intros w acc Hacc.
  - exists w, acc. split; [reflexivity|exact Hacc].
  - destruct (process_one_totals w p acc Hacc) as (w1 & acc1 & Hone & Hacc1).
    destruct (IH w1 acc1 Hacc1) as (w2 & acc2 & Hrest & Hacc2).
    exists w2, acc2. split; [|exact Hacc2].
    cbn [process_files]. unfold bind. rewrite Hone. exact Hrest.
Qed.

End SummaryTotals.

(** X9: the summary's totals.  In the summary of a pruning pass the total of
    removed columns never exceeds the total of original columns, and every
    successful file contributes at least one original column: the average
    the script prints is at least 1 whenever a file succeeded. *)
Theorem summary_totals_are_sound (w : World) (folder : path) (recursive : bool) :
  csv_files_of folder recursive w = []
  \/ exists pre s f removed original,
       stdout (fst (process_folder folder recursive w))
         = pre ++ [MsgPruneSummary s f removed original]
       /\ removed <= original
       /\ s <= original.
Proof.
  unfold process_folder, bind.
  assert (Hglob : (if recursive then rglob folder ".csv" else glob folder ".csv") w
                  = (w, Ok (csv_files_of folder recursive w))).
  { unfold csv_files_of. destruct recursive; reflexivity. }
  rewrite Hglob.
  destruct (csv_files_of folder recursive w) as [|p l] eqn:Hfound; [left; reflexivity|].
  right. unfold print. cbn [fst snd].
  destruct (process_files_totals (p :: l)
              (mkWorld (files w) (listing w) (wfail w) (case_sensitive w)
                 (stdout w ++ [MsgFoundCsv (length (p :: l))]))
              (mkCounters 0 0 0 0))
    as (w' & acc' & Hrun & Hr & Hs).
  { split; cbn; lia. }
  rewrite Hrun. cbn [fst snd stdout].
  exists (stdout w'), (successful acc'), (failed acc'), (total_removed acc'), (total_original acc').
  split; [reflexivity|]. split; assumption.
Qed.

(** ** The backup branch *)

Section BackupPath.

Lemma length_substring (s : string) : forall i m,
  i + m <= String.length s -> String.length (substring i m s) = m.
Proof.
  induction s as [|a s IH]; intros i m Hle.
  - cbn in Hle. assert (i = 0) by lia. assert (m = 0) by lia. subst. reflexivity.
  - destruct i as [|i]; destruct m as [|m]; cbn in *.
    + reflexivity.
    + rewrite IH by lia. reflexivity.
    + apply IH. lia.
    + apply IH. lia.
Qed.

(** No dot follows the one [rfind] reports. *)
Lemma rfind_dot_last (s : string) : forall i j,
  rfind_dot s = Some i -> i < j -> String.get j s <> Some "."%char.
Proof.
  induction s as [|a s IH]; intros i j Hi Hlt; [discriminate|].
  cbn in Hi. destruct j as [|j]; [lia|]. cbn.
  destruct (rfind_dot s) as [k|] eqn:Hk.
  - inversion Hi; subst. apply (IH k j eq_refl). lia.
  - clear IH Hi Hlt. revert j. induction s as [|b s IHs]; intros j; [destruct j; discriminate|].
    cbn in Hk. destruct (rfind_dot s) as [k|] eqn:Hk'; [discriminate|].
    destruct (Ascii.eqb b "."%char) eqn:Hb; [discriminate|].
    destruct j as [|j]; cbn.
    + intros Heq. inversion Heq; subst. discriminate.
    + apply IHs. reflexivity.
Qed.

(** [with_suffix] puts the new suffix after the stem. *)
Lemma with_suffix_stem (p : path) (s : string) :
  name p <> "" -> with_suffix p s = Ok (joinpath (parent p) (stem p +:+ s)).
Proof.
  intros Hne. unfold with_suffix, stem, suffix_of, stem_of.
  destruct (decide (name p = "")) as [|_]; [contradiction|].
  destruct (rfind_dot (name p)) as [i|] eqn:Hi.
  - destruct ((0 <? i) && (i <? String.length (name p) - 1)) eqn:Hc.
    + apply andb_true_iff in Hc as [H0 H1]. apply Nat.ltb_lt in H0, H1.
      assert (Hlen : String.length (substring i (String.length (name p) - i) (name p))
                     = String.length (name p) - i) by (apply length_substring; lia).
      destruct (decide (substring i (String.length (name p) - i) (name p) = "")) as [He|_].
      * rewrite He in Hlen. cbn in Hlen. lia.
      * rewrite Hlen. replace (String.length (name p) - (String.length (name p) - i)) with i by lia.
        reflexivity.
    + destruct (decide ("" = "")) as [_|Hx]; [reflexivity|contradiction].
  - destruct (decide ("" = "")) as [_|Hx]; [reflexivity|contradiction].
Qed.

Lemma stem_backup_differs (nm : string) : stem_of nm +:+ ".csv.backup" <> nm.
Proof.
  unfold stem_of. intros Heq.
  destruct (rfind_dot nm) as [i|] eqn:Hi.
  - destruct ((0 <? i) && (i <? String.length nm - 1)) eqn:Hc.
    + pose proof (rfind_dot_lt nm i Hi) as Hlt.
      apply (rfind_dot_last nm i (4 + i) Hi); [lia|].
      rewrite <- Heq at 1.
      rewrite <- (length_substring_prefix nm i) at 1 by lia.
      rewrite <- append_correct2. reflexivity.
    + apply (f_equal String.length) in Heq. rewrite length_append in Heq. cbn in Heq. lia.
  - apply (f_equal String.length) in Heq. rewrite length_append in Heq. cbn in Heq. lia.
Qed.

Lemma backup_differs (p : path) : joinpath (parent p) (stem p +:+ ".csv.backup") <> p.
Proof.
  unfold joinpath, parent, stem, name. intros Heq.
  destruct (List.exists_last (l := p)) as [front [lst Hp]].
  - intros ->. cbn in Heq. discriminate.
  - subst p. rewrite List.removelast_last, List.last_last in Heq.
    apply List.app_inj_tail in Heq as [_ Heq]. exact (stem_backup_differs lst Heq).
Qed.

Lemma run_backup (w : World) (p : path) (t : csv_text) (df df' : DataFrame)
    (c : string) (l : list string) :
  files w !! p = Some (CsvFile t) ->
  read_csv t = Ok df ->
  cols_to_drop df = Ok (c :: l) ->
  drop df (c :: l) = Ok df' ->
  name p <> "" ->
  wfail w !! joinpath (parent p) (stem p +:+ ".csv.backup") = None ->
  wfail w !! p = None ->
  snd (remove_null_columns p false w)
    = Ok (Some (length (columns df), length (columns df'), length (c :: l)))
  /\ files (fst (remove_null_columns p false w))
     = <[p := CsvFile (to_csv df')]>
         (<[joinpath (parent p) (stem p +:+ ".csv.backup") := CsvFile t]> (delete p (files w))).
Proof.
  intros Hp Hread Hdrop Hdf' Hne Hwb Hw. unfold remove_null_columns. file_exists Hp.
  rewrite Hread. run. rewrite Hdrop. run. rewrite Hdf'. run.
  rewrite (with_suffix_stem p ".csv.backup" Hne). run. rewrite Hp, Hwb. run. rewrite Hw. run.
  rewrite lookup_insert_eq. rewrite bool_decide_eq_true_2 by (eexists; reflexivity).
  split; reflexivity.
Qed.

Lemma run_backup_write_refused (w : World) (p : path) (t : csv_text) (df df' : DataFrame)
    (c : string) (l : list string) (e : exn) :
  files w !! p = Some (CsvFile t) ->
  read_csv t = Ok df ->
  cols_to_drop df = Ok (c :: l) ->
  drop df (c :: l) = Ok df' ->
  name p <> "" ->
  wfail w !! joinpath (parent p) (stem p +:+ ".csv.backup") = None ->
  wfail w !! p = Some e ->
  snd (remove_null_columns p false w) = Raise e
  /\ files (fst (remove_null_columns p false w))
     = <[joinpath (parent p) (stem p +:+ ".csv.backup") := CsvFile t]> (delete p (files w)).
Proof.
  intros Hp Hread Hdrop Hdf' Hne Hwb Hw. unfold remove_null_columns. file_exists Hp.
  rewrite Hread. run. rewrite Hdrop. run. rewrite Hdf'. run.
  rewrite (with_suffix_stem p ".csv.backup" Hne). run. rewrite Hp, Hwb. run. rewrite Hw. run.
  split; reflexivity.
Qed.

End BackupPath.

(** X10: the backup branch.  With [inplace=False], a non-empty removal set and
    both paths writable, the original file is renamed to
    [<stem>.csv.backup] in the same directory (for [x.csv]: [x.csv.backup]),
    keeping its contents; the reduced table is stored under the original
    name; no other file changes. *)
Theorem backup_run_keeps_original (w : World) (p : path) (t : csv_text) (df : DataFrame) :
  files w !! p = Some (CsvFile t) ->
  read_csv t = Ok df ->
  qualifying (cols df) <> [] ->
  name p <> "" ->
  wfail w !! joinpath (parent p) (stem p +:+ ".csv.backup") = None ->
  wfail w !! p = None ->
  let backup := joinpath (parent p) (stem p +:+ ".csv.backup") in
  let w' := fst (remove_null_columns p false w) in
  with_suffix p ".csv.backup" = Ok backup
  /\ snd (remove_null_columns p false w)
     = Ok (Some (length (columns df), length (columns (kept df)),
                 length (qualifying (cols df))))
  /\ files w' !! backup = Some (CsvFile t)
  /\ files w' !! p = Some (CsvFile (to_csv (kept df)))
  /\ (forall q, q <> p -> q <> backup -> files w' !! q = files w !! q).
Proof.
  intros Hp Hread Hq Hne Hwb Hw backup w'. subst backup w'.
  destruct (read_csv_loaded t df Hread) as ((Hnd & _ & Hrect & _) & _).
  pose proof (cols_to_drop_spec df Hnd Hrect) as Hdrop.
  pose proof (drop_qualifying df Hnd) as Hdf'. fold (kept df) in Hdf'.
  destruct (qualifying (cols df)) as [|c l] eqn:Hql; [contradiction|].
  destruct (run_backup w p t df (kept df) c l Hp Hread Hdrop Hdf' Hne Hwb Hw) as [Hres Hfiles].
  rewrite Hfiles. split; [apply with_suffix_stem; exact Hne|]. split; [exact Hres|].
  split; [|split].
  - rewrite lookup_insert_ne by (intros Heq; exact (backup_differs p (eq_sym Heq))).
    apply lookup_insert_eq.
  - apply lookup_insert_eq.
  - intros q Hqp Hqb. rewrite lookup_insert_ne by congruence.
    rewrite lookup_insert_ne by congruence. apply lookup_delete_ne. congruence.
Qed.

Lemma backup_run_on_survey :
  with_suffix ["d"; "survey.csv"] ".csv.backup" = Ok ["d"; "survey.csv.backup"]
  /\ snd (remove_null_columns ["d"; "survey.csv"] false survey_world) = Ok (Some (2, 1, 1))
  /\ files (fst (remove_null_columns ["d"; "survey.csv"] false survey_world))
       !! ["d"; "survey.csv.backup"] = Some (CsvFile sparse_text)
  /\ files (fst (remove_null_columns ["d"; "survey.csv"] false survey_world))
       !! ["d"; "survey.csv"] = Some (CsvFile (mkCsv ["id"] [["1"]; ["2"]]))
  /\ (forall q, q <> ["d"; "survey.csv"] -> q <> ["d"; "survey.csv.backup"] ->
        files (fst (remove_null_columns ["d"; "survey.csv"] false survey_world)) !! q
        = files survey_world !! q).
Proof.
  apply (backup_run_keeps_original survey_world ["d"; "survey.csv"] sparse_text
           (mkDataFrame 2 [("id", [Str "1"; Str "2"]); ("notes", [NaN; NaN])])).
  - reflexivity.
  - vm_compute. reflexivity.
  - discriminate.
  - discriminate.
  - reflexivity.
  - reflexivity.
Defined.

(** X11: a failed write after the rename.  With [inplace=False], when the
    rename has succeeded and opening the original name for writing then
    fails, the error propagates and nothing restores the file: the table
    exists under the backup name only, and the original name has no file. *)
Theorem backup_run_failure_leaves_only_backup (w : World) (p : path) (t : csv_text)
    (df : DataFrame) (e : exn) :
  files w !! p = Some (CsvFile t) ->
  read_csv t = Ok df ->
  qualifying (cols df) <> [] ->
  name p <> "" ->
  wfail w !! joinpath (parent p) (stem p +:+ ".csv.backup") = None ->
  wfail w !! p = Some e ->
  let backup := joinpath (parent p) (stem p +:+ ".csv.backup") in
  let w' := fst (remove_null_columns p false w) in
  snd (remove_null_columns p false w) = Raise e
  /\ files w' !! p = None
  /\ files w' !! backup = Some (CsvFile t).
Proof.
  intros Hp Hread Hq Hne Hwb Hw backup w'. subst backup w'.
  destruct (read_csv_loaded t df Hread) as ((Hnd & _ & Hrect & _) & _).
  pose proof (cols_to_drop_spec df Hnd Hrect) as Hdrop.
  pose proof (drop_qualifying df Hnd) as Hdf'.
  destruct (qualifying (cols df)) as [|c l] eqn:Hql; [contradiction|].
  destruct (run_backup_write_refused w p t df _ c l e Hp Hread Hdrop Hdf' Hne Hwb Hw)
    as [Hres Hfiles].
  rewrite Hfiles. split; [exact Hres|]. split.
  - rewrite lookup_insert_ne by (apply backup_differs). apply lookup_delete_eq.
  - apply lookup_insert_eq.
Qed.

Lemma backup_run_failure_on_survey :
  snd (remove_null_columns ["d"; "survey.csv"] false disk_error_world) = Raise OtherOSError
  /\ files (fst (remove_null_columns ["d"; "survey.csv"] false disk_error_world))
       !! ["d"; "survey.csv"] = None
  /\ files (fst (remove_null_columns ["d"; "survey.csv"] false disk_error_world))
       !! ["d"; "survey.csv.backup"] = Some (CsvFile sparse_text).
Proof.
  apply (backup_run_failure_leaves_only_backup disk_error_world ["d"; "survey.csv"] sparse_text
           (mkDataFrame 2 [("id", [Str "1"; Str "2"]); ("notes", [NaN; NaN])]) OtherOSError).
  - reflexivity.
  - vm_compute. reflexivity.
  - discriminate.
  - discriminate.
  - reflexivity.
  - reflexivity.
Defined.

(** ** The Converter, file by file *)

Section ConverterRuns.

(** What a conversion that returned did. *)
Lemma convert_one_returns (w w' : World) (input_path : path) (output_folder : option path)
    (dta_file csv_file : path) :
  Converter.convert_one input_path output_folder dta_file w = (w', Ok csv_file) ->
  exists df output_path,
    files w !! dta_file = Some (DtaFile df)
    /\ output_stem_path input_path output_folder dta_file = Ok output_path
    /\ with_suffix output_path ".csv" = Ok csv_file
    /\ files w' = <[csv_file := CsvFile (to_csv df)]> (files w)
    /\ In csv_file (listing w')
    /\ case_sensitive w' = case_sensitive w.
Proof.
  unfold Converter.convert_one, output_stem_path.
  destruct (files w !! dta_file) as [c|] eqn:Hp.
  2: { run. rewrite Hp. rewrite bool_decide_eq_false_2 by (intros [x Hx]; discriminate).
       run. discriminate. }
  file_exists Hp. destruct c as [|df| |]; run; try discriminate.
  destruct output_folder as [out|]; run.
  - destruct (relative_to dta_file input_path) as [rel|e]; run; [|discriminate].
    destruct (wfail w !! parent (out ++ rel)); run; [discriminate|].
    destruct (with_suffix (out ++ rel) ".csv") as [csv|e] eqn:Hs; run; [|discriminate].
    destruct (wfail w !! csv) eqn:Hw; run; [discriminate|].
    rewrite lookup_insert_eq. rewrite bool_decide_eq_true_2 by (eexists; reflexivity).
    intros Heq. inversion Heq; subst. exists df, (out ++ rel).
    cbn [files listing case_sensitive].
    split; [reflexivity|]. split; [reflexivity|]. split; [exact Hs|]. split; [reflexivity|].
    split; [|reflexivity].
    destruct (bool_decide (csv_file ∈ listing w)) eqn:Hin.
    + apply bool_decide_eq_true_1 in Hin. apply list_elem_of_In. exact Hin.
    + apply List.in_or_app. right. left. reflexivity.
  - destruct (with_suffix (joinpath (parent dta_file) (stem dta_file)) ".csv") as [csv|e] eqn:Hs;
      run; [|discriminate].
    destruct (wfail w !! csv) eqn:Hw; run; [discriminate|].
    rewrite lookup_insert_eq. rewrite bool_decide_eq_true_2 by (eexists; reflexivity).
    intros Heq. inversion Heq; subst. exists df, (joinpath (parent dta_file) (stem dta_file)).
    cbn [files listing case_sensitive].
    split; [reflexivity|]. split; [reflexivity|]. split; [exact Hs|]. split; [reflexivity|].
    split; [|reflexivity].
    destruct (bool_decide (csv_file ∈ listing w)) eqn:Hin.
    + apply bool_decide_eq_true_1 in Hin. apply list_elem_of_In. exact Hin.
    + apply List.in_or_app. right. left. reflexivity.
Qed.

End ConverterRuns.

Section CsvNames.

Lemma with_suffix_result (p q : path) (s : string) :
  with_suffix p s = Ok q -> q = joinpath (parent p) (stem p +:+ s).
Proof.
  intros Hs. destruct (decide (name p = "")) as [He|Hne].
  - unfold with_suffix in Hs. destruct (decide (name p = "")); [discriminate|contradiction].
  - rewrite (with_suffix_stem p s Hne) in Hs. inversion Hs. reflexivity.
Qed.

Lemma substring_append_right (a b : string) :
  substring (String.length a) (String.length b) (a +:+ b) = b.
Proof.
  induction a as [|x a IH].
  - change ("" +:+ b) with b. change (String.length "") with 0.
    induction b as [|y b IHb]; [reflexivity|].
    change (String y (substring 0 (String.length b) b) = String y b). rewrite IHb. reflexivity.
  - change (substring (String.length a) (String.length b) (a +:+ b) = b). exact IH.
Qed.

Lemma ends_with_append (a b : string) : ends_with b (a +:+ b) = true.
Proof.
  unfold ends_with. rewrite length_append. apply andb_true_iff. split.
  - apply Nat.leb_le. lia.
  - apply bool_decide_eq_true_2.
    replace (String.length a + String.length b - String.length b) with (String.length a) by lia.
    apply substring_append_right.
Qed.

Lemma lower_append (a b : string) : lower (a +:+ b) = lower a +:+ lower b.
Proof.
  induction a as [|x a IH]; [reflexivity|].
  change (String (lower_ascii x) (lower (a +:+ b)) = String (lower_ascii x) (lower a +:+ lower b)).
  rewrite IH. reflexivity.
Qed.

Lemma joinpath_name (dir : path) (nm : string) : name (joinpath dir nm) = nm.
Proof. unfold joinpath, name. apply List.last_last. Qed.

Lemma joinpath_parent (dir : path) (nm : string) : parent (joinpath dir nm) = dir.
Proof. unfold joinpath, parent. apply List.removelast_last. Qed.

(** A name the Converter writes matches the pruner's pattern under either flavour. *)
Lemma csv_name_matches (cs : bool) (base : string) :
  matches_ext cs ".csv" (base +:+ ".csv") = true.
Proof. apply matches_ext_exact. apply ends_with_append. Qed.

(** No name ends both in [.csv] and in [.dta], whatever the letter case. *)
Lemma csv_name_is_not_dta (base : string) :
  matches_ext false ".dta" (base +:+ ".csv") = false.
Proof.
  unfold matches_ext. rewrite lower_append.
  change (lower ".dta") with ".dta". change (lower ".csv") with ".csv".
  pose proof (ends_with_append (lower base) ".csv") as Hcsv.
  destruct (ends_with ".dta" (lower base +:+ ".csv")) eqn:Hdta; [|reflexivity].
  unfold ends_with in *. apply andb_true_iff in Hcsv as [_ Hc]. apply andb_true_iff in Hdta as [_ Hd].
  apply bool_decide_eq_true_1 in Hc. apply bool_decide_eq_true_1 in Hd.
  change (String.length ".dta") with (String.length ".csv") in Hd. rewrite Hc in Hd. discriminate.
Qed.

Lemma is_under_sibling (root : path) : forall (p : path) (nm : string),
  is_under root p = true -> is_under root (joinpath (parent p) nm) = true.
Proof.
  unfold joinpath, parent. induction root as [|r root IH]; intros p nm Hu.
  - destruct (removelast p); reflexivity.
  - destruct p as [|c p]; [discriminate|]. cbn [is_under] in Hu.
    apply andb_true_iff in Hu as [Hrc Hu].
    destruct p as [|c' p'].
    + destruct root; discriminate.
    + change (removelast (c :: c' :: p') ++ [nm]) with (c :: (removelast (c' :: p') ++ [nm])).
      cbn [is_under]. rewrite Hrc. exact (IH (c' :: p') nm Hu).
Qed.

End CsvNames.

Section ConverterFrame.

(** A conversion that raised stored nothing. *)
Lemma convert_one_raises (w w' : World) (input_path : path) (output_folder : option path)
    (dta_file : path) (e : exn) :
  Converter.convert_one input_path output_folder dta_file w = (w', Raise e) ->
  files w' = files w /\ listing w' = listing w /\ case_sensitive w' = case_sensitive w.
Proof.
  unfold Converter.convert_one.
  destruct (files w !! dta_file) as [c|] eqn:Hp.
  2: { run. rewrite Hp. rewrite bool_decide_eq_false_2 by (intros [x Hx]; discriminate).
       run. intros Heq. inversion Heq; subst. auto. }
  file_exists Hp.
  destruct c as [|df| |]; run; try (intros Heq; inversion Heq; subst; cbn; auto; fail).
  destruct output_folder as [out|]; run.
  - destruct (relative_to dta_file input_path) as [rel|e1]; run;
      [|intros Heq; inversion Heq; subst; cbn; auto].
    destruct (wfail w !! parent (out ++ rel)); run; [intros Heq; inversion Heq; subst; cbn; auto|].
    destruct (with_suffix (out ++ rel) ".csv") as [csv|e1]; run;
      [|intros Heq; inversion Heq; subst; cbn; auto].
    destruct (wfail w !! csv); run; [intros Heq; inversion Heq; subst; cbn; auto|].
    rewrite lookup_insert_eq. rewrite bool_decide_eq_true_2 by (eexists; reflexivity).
    discriminate.
  - destruct (with_suffix (joinpath (parent dta_file) (stem dta_file)) ".csv") as [csv|e1]; run;
      [|intros Heq; inversion Heq; subst; cbn; auto].
    destruct (wfail w !! csv); run; [intros Heq; inversion Heq; subst; cbn; auto|].
    rewrite lookup_insert_eq. rewrite bool_decide_eq_true_2 by (eexists; reflexivity).
    discriminate.
Qed.

(** The name of a file a conversion wrote ends in [.csv]. *)
Lemma convert_one_csv_name (w w' : World) (input_path : path) (output_folder : option path)
    (dta_file csv_file : path) :
  Converter.convert_one input_path output_folder dta_file w = (w', Ok csv_file) ->
  ends_with ".csv" (name csv_file) = true.
Proof.
  intros Hrun.
  destruct (convert_one_returns w w' input_path output_folder dta_file csv_file Hrun)
    as (df & op & _ & _ & Hs & _).
  rewrite (with_suffix_result op csv_file ".csv" Hs), joinpath_name. apply ends_with_append.
Qed.

(** One turn of the loop leaves every path not named [*.csv] as it was. *)
Lemma convert_step_frame (w : World) (input_path : path) (output_folder : option path)
    (acc : nat * nat) (dta_file q : path) :
  ends_with ".csv" (name q) = false ->
  files (fst (Converter.convert_step input_path output_folder acc dta_file w)) !! q
  = files w !! q.
Proof.
  intros Hq. unfold Converter.convert_step, try_except, bind.
  destruct (Converter.convert_one input_path output_folder dta_file w) as [w1 [csv|e]] eqn:Hrun.
  - unfold ret. cbn [fst].
    pose proof (convert_one_csv_name w w1 input_path output_folder dta_file csv Hrun) as Hname.
    destruct (convert_one_returns w w1 input_path output_folder dta_file csv Hrun)
      as (df & op & _ & _ & _ & Hf & _).
    rewrite Hf. apply lookup_insert_ne. intros ->. rewrite Hname in Hq. discriminate.
  - cbn [any_exception]. unfold print, ret. cbn [fst files].
    destruct (convert_one_raises w w1 input_path output_folder dta_file e Hrun) as (Hf & _).
    rewrite Hf. reflexivity.
Qed.

Lemma convert_files_frame (input_path : path) (output_folder : option path) (l : list path) :
  forall (w : World) (acc : nat * nat) (q : path),
  ends_with ".csv" (name q) = false ->
  files (fst (Converter.convert_files input_path output_folder l acc w)) !! q = files w !! q.
Proof.
  induction l as [|p l IH]; intros w acc q Hq; [reflexivity|].
  cbn [Converter.convert_files]. unfold bind.
  pose proof (convert_step_frame w input_path output_folder acc p q Hq) as Hone.
  destruct (convert_step_outcome input_path output_folder acc p w) as (w1 & acc1 & Hstep & _).
  rewrite Hstep in Hone |- *. cbn [fst] in Hone. rewrite (IH w1 acc1 q Hq). exact Hone.
Qed.

(** A name the Converter globs for does not end in [.csv]. *)
Lemma dta_name_is_not_csv (cs : bool) (nm : string) :
  matches_ext cs ".dta" nm = true \/ matches_ext cs ".DTA" nm = true ->
  ends_with ".csv" nm = false.
Proof.
  intros Hm. destruct (ends_with ".csv" nm) eqn:Hcsv; [exfalso|reflexivity].
  assert (Hclash : forall suf s, String.length suf = 4 -> suf <> ".csv" ->
            ends_with ".csv" s = true -> ends_with suf s = true -> False).
  { intros suf s Hlen Hne H1 H2. unfold ends_with in H1, H2.
    apply andb_true_iff in H1 as [_ H1]. apply andb_true_iff in H2 as [_ H2].
    apply bool_decide_eq_true_1 in H1. apply bool_decide_eq_true_1 in H2.
    rewrite Hlen in H2. change (String.length ".csv") with 4 in H1. congruence. }
  destruct cs; unfold matches_ext in Hm.
  - destruct Hm as [Hm|Hm].
    + exact (Hclash ".dta" nm eq_refl ltac:(discriminate) Hcsv Hm).
    + exact (Hclash ".DTA" nm eq_refl ltac:(discriminate) Hcsv Hm).
  - pose proof (ends_with_lower ".csv" nm Hcsv) as Hl. change (lower ".csv") with ".csv" in Hl.
    change (lower ".dta") with ".dta" in Hm. change (lower ".DTA") with ".dta" in Hm.
    destruct Hm as [Hm|Hm]; exact (Hclash ".dta" (lower nm) eq_refl ltac:(discriminate) Hl Hm).
Qed.

Lemma in_dta_files_of (input_path p : path) (w : World) :
  In p (dta_files_of input_path w) ->
  is_under input_path p = true
  /\ (matches_ext (case_sensitive w) ".dta" (name p) = true
      \/ matches_ext (case_sensitive w) ".DTA" (name p) = true).
Proof.
  unfold dta_files_of. intros Hin. apply List.in_app_or in Hin as [Hin|Hin];
    apply List.filter_In in Hin as [_ Hin]; apply andb_true_iff in Hin as [Hu Hm]; auto.
Qed.

Lemma relative_to_app (base rel : path) : relative_to (base ++ rel) base = Ok rel.
Proof.
  induction base as [|b base IH]; cbn.
  - destruct rel; reflexivity.
  - destruct (decide (b = b)) as [_|Hne]; [exact IH|contradiction].
Qed.

Lemma name_app (dir rel : path) : rel <> [] -> name (dir ++ rel) = name rel.
Proof.
  intros Hne. unfold name. induction dir as [|d dir IH]; [reflexivity|].
  cbn [app]. destruct (dir ++ rel) eqn:Happ.
  - destruct dir; [contradiction|discriminate].
  - rewrite <- IH. reflexivity.
Qed.

Lemma parent_app (dir rel : path) : rel <> [] -> parent (dir ++ rel) = dir ++ parent rel.
Proof. intros Hne. unfold parent. apply List.removelast_app. exact Hne. Qed.

End ConverterFrame.

(** X12: the Converter writes [*.csv] names only.  After a whole conversion,
    with or without an output folder, every path whose name does not end in
    [.csv] holds what it held before; every Stata file the run discovered is
    such a path, so no source is overwritten or removed. *)
Theorem conversion_keeps_sources (w : World) (input_path : path) (output_folder : option path)
    (q : path) :
  ends_with ".csv" (name q) = false \/ In q (dta_files_of input_path w) ->
  files (fst (Converter.convert_dta_to_csv input_path output_folder w)) !! q = files w !! q.
Proof.
  intros Hq.
  assert (Hname : ends_with ".csv" (name q) = false).
  { destruct Hq as [Hq|Hq]; [exact Hq|].
    apply in_dta_files_of in Hq as [_ Hm]. exact (dta_name_is_not_csv _ _ Hm). }
  unfold Converter.convert_dta_to_csv, Converter.discover, rglob, bind, ret.
  fold (dta_files_of input_path w).
  destruct (dta_files_of input_path w) as [|p l]; [reflexivity|].
  unfold print. cbn [fst snd].
  set (w0 := mkWorld (files w) (listing w) (wfail w) (case_sensitive w)
               (stdout w ++ [MsgFoundDta (length (p :: l))])).
  pose proof (convert_files_frame input_path output_folder (p :: l) w0 (0, 0) q Hname) as Hframe.
  destruct (convert_files_outcome input_path output_folder (p :: l) w0 (0, 0))
    as (w' & acc' & Hrun & _).
  rewrite Hrun in Hframe |- *. cbn [fst files] in Hframe |- *. exact Hframe.
Qed.

Lemma conversion_keeps_dotted_source :
  files (fst (Converter.convert_dta_to_csv ["data"] None dotted_world))
    !! ["data"; "survey.v2.dta"]
  = files dotted_world !! ["data"; "survey.v2.dta"].
Proof.
  apply (conversion_keeps_sources dotted_world ["data"] None ["data"; "survey.v2.dta"]).
  right. vm_compute. left. reflexivity.
Defined.

(** X13: a source that cannot be read.  A discovered entry that is missing (a
    dangling link) or does not hold a Stata table makes its turn of the loop
    end in the [except] branch: the failed counter goes up by one, the
    successful one stays, the failure is the last line printed, and no file
    is stored or listed; a missing entry fails at [stat()], before the
    ["Processing"] line. *)
Theorem unreadable_source_counts_as_failed (w : World) (input_path : path)
    (output_folder : option path) (acc : nat * nat) (dta_file : path) :
  (forall df, files w !! dta_file <> Some (DtaFile df)) ->
  exists e,
    Converter.convert_step input_path output_folder acc dta_file w
    = (emit w ((if bool_decide (is_Some (files w !! dta_file))
                then [MsgProcessing (name dta_file)] else [])
               ++ [MsgConvertFailed (name dta_file) e]),
       Ok (fst acc, snd acc + 1))
    /\ (files w !! dta_file = None -> e = FileNotFoundError).
Proof.
  intros Hno. unfold Converter.convert_step, Converter.convert_one, emit.
  destruct (files w !! dta_file) as [c|] eqn:Hp.
  - exists StataError.
    rewrite (bool_decide_eq_true_2 (is_Some (Some c))) by (eexists; reflexivity).
    split; [|discriminate].
    file_exists Hp.
    destruct c as [t|df|s|]; run; try (rewrite <- !List.app_assoc; reflexivity).
    exfalso. exact (Hno df eq_refl).
  - exists FileNotFoundError.
    rewrite (bool_decide_eq_false_2 (is_Some None)) by (intros [x Hx]; discriminate).
    split; [|reflexivity].
    run. rewrite Hp.
    rewrite (bool_decide_eq_false_2 (is_Some None)) by (intros [x Hx]; discriminate).
    run. reflexivity.
Qed.

Lemma junk_source_counts_as_failed :
  exists e,
    Converter.convert_step ["in"] None (3, 1) ["in"; "bad.dta"] junk_world
    = (emit junk_world
         ((if bool_decide (is_Some (files junk_world !! ["in"; "bad.dta"]))
           then [MsgProcessing (name ["in"; "bad.dta"])] else [])
          ++ [MsgConvertFailed (name ["in"; "bad.dta"]) e]),
       Ok (fst (3, 1), snd (3, 1) + 1))
    /\ (files junk_world !! ["in"; "bad.dta"] = None -> e = FileNotFoundError).
Proof.
  apply (unreadable_source_counts_as_failed junk_world ["in"] None (3, 1) ["in"; "bad.dta"]).
  intros df. vm_compute. discriminate.
Defined.

(** X14: the mirrored output path.  With an output folder, a source
    [input/rel] is written to [out/rel] with the last suffix of its name
    replaced by [.csv] (line 51 joins the relative path, line 57 replaces the
    suffix): inner dots of the base name survive, the sub-directories of
    [rel] are kept, and the table stored is the one read. *)
Theorem mirrored_output_path (w : World) (input_path out rel : path) (df : DataFrame) :
  name rel <> "" ->
  files w !! (input_path ++ rel) = Some (DtaFile df) ->
  wfail w !! (out ++ parent rel) = None ->
  wfail w !! (out ++ parent rel ++ [stem rel +:+ ".csv"]) = None ->
  snd (Converter.convert_one input_path (Some out) (input_path ++ rel) w)
  = Ok (out ++ parent rel ++ [stem rel +:+ ".csv"])
  /\ files (fst (Converter.convert_one input_path (Some out) (input_path ++ rel) w))
     = <[out ++ parent rel ++ [stem rel +:+ ".csv"] := CsvFile (to_csv df)]> (files w).
Proof.
  intros Hname Hp Hdir Hcsv.
  assert (Hrel : rel <> []) by (intros ->; apply Hname; reflexivity).
  unfold Converter.convert_one. file_exists Hp. rewrite relative_to_app. run.
  rewrite (parent_app out rel Hrel), Hdir. run.
  assert (Hnm : name (out ++ rel) <> "") by (rewrite (name_app out rel Hrel); exact Hname).
  rewrite (with_suffix_stem (out ++ rel) ".csv" Hnm). run.
  unfold stem. rewrite (name_app out rel Hrel), (parent_app out rel Hrel).
  fold (stem rel). unfold joinpath. rewrite <- List.app_assoc. rewrite Hcsv. run.
  rewrite lookup_insert_eq. rewrite bool_decide_eq_true_2 by (eexists; reflexivity).
  run. split; reflexivity.
Qed.

Lemma mirrored_output_of_dotted_name :
  snd (Converter.convert_one ["data"] (Some ["out"]) (["data"] ++ ["wave1"; "survey.v2.dta"])
         nested_world)
  = Ok (["out"] ++ parent ["wave1"; "survey.v2.dta"]
        ++ [stem ["wave1"; "survey.v2.dta"] +:+ ".csv"])
  /\ files (fst (Converter.convert_one ["data"] (Some ["out"])
                   (["data"] ++ ["wave1"; "survey.v2.dta"]) nested_world))
     = <[["out"] ++ parent ["wave1"; "survey.v2.dta"]
         ++ [stem ["wave1"; "survey.v2.dta"] +:+ ".csv"] := CsvFile (to_csv small_frame)]>
         (files nested_world).
Proof.
  apply (mirrored_output_path nested_world ["data"] ["out"] ["wave1"; "survey.v2.dta"] small_frame).
  - vm_compute. discriminate.
  - vm_compute. reflexivity.
  - vm_compute. reflexivity.
  - vm_compute. reflexivity.
Defined.



(** X16: from the Converter to the pruning pass.  A CSV file written alongside
    its source (no output folder) lies in the source's directory, and a
    recursive pruning pass over the folder that was converted enumerates it,
    whatever the path flavour. *)
Theorem converted_file_is_found_by_pruner (w w' : World) (input_path dta_file csv_file : path) :
  is_under input_path dta_file = true ->
  Converter.convert_one input_path None dta_file w = (w', Ok csv_file) ->
  parent csv_file = parent dta_file
  /\ In csv_file (csv_files_of input_path true w').
Proof.
  intros Hu Hrun.
  destruct (convert_one_returns w w' input_path None dta_file csv_file Hrun)
    as (df & op & _ & Hop & Hs & _ & Hin & _).
  cbn [output_stem_path] in Hop. inversion Hop; subst op.
  pose proof (with_suffix_result _ _ _ Hs) as Hcsv. rewrite joinpath_parent in Hcsv.
  split.
  - rewrite Hcsv. apply joinpath_parent.
  - unfold csv_files_of. apply List.filter_In. split; [exact Hin|].
    apply andb_true_iff. split.
    + rewrite Hcsv. apply is_under_sibling. exact Hu.
    + rewrite Hcsv, joinpath_name. apply csv_name_matches.
Qed.

Lemma converted_upper_case_is_found_by_pruner :
  parent ["in"; "sub"; "HH.csv"] = parent ["in"; "sub"; "HH.DTA"]
  /\ In ["in"; "sub"; "HH.csv"]
       (csv_files_of ["in"] true
          (fst (Converter.convert_one ["in"] None ["in"; "sub"; "HH.DTA"] upper_case_world))).
Proof.
  apply (converted_file_is_found_by_pruner upper_case_world _ ["in"] ["in"; "sub"; "HH.DTA"]
           ["in"; "sub"; "HH.csv"]).
  - vm_compute. reflexivity.
  - vm_compute. reflexivity.
Defined.

Section ExtractorRuns.

(** No file name is its own stem followed by [_columns.txt]. *)
Lemma stem_columns_differs (nm : string) : stem_of nm +:+ "_columns.txt" <> nm.
Proof.
  unfold stem_of. intros Heq.
  destruct (rfind_dot nm) as [i|] eqn:Hi.
  - destruct ((0 <? i) && (i <? String.length nm - 1)) eqn:Hc.
    + pose proof (rfind_dot_get nm i Hi) as Hget.
      pose proof (rfind_dot_lt nm i Hi) as Hlt.
      rewrite <- Heq in Hget at 1.
      rewrite <- (length_substring_prefix nm i) in Hget at 1 by lia.
      rewrite get_append_at_length in Hget. discriminate.
    + apply (f_equal String.length) in Heq. rewrite length_append in Heq. simpl in Heq. lia.
  - apply (f_equal String.length) in Heq. rewrite length_append in Heq. simpl in Heq. lia.
Qed.

Lemma default_output_differs (p : path) : default_output p <> p.
Proof.
  unfold default_output, joinpath, parent, stem, name. intros Heq.
  destruct (List.exists_last (l := p)) as [front [lst Hp]].
  - intros ->. simpl in Heq. discriminate.
  - subst p. rewrite List.removelast_last, List.last_last in Heq.
    apply List.app_inj_tail in Heq as [_ Heq]. exact (stem_columns_differs lst Heq).
Qed.

(** The extractor stores at most one file, the output. *)
Lemma extract_frame (w : World) (p : path) (output_file : option path) (q : path) :
  q <> output_of p output_file ->
  files (fst (extract_column_names p output_file w)) !! q = files w !! q.
Proof.
  intros Hq. unfold extract_column_names. fold (output_of p output_file).
  branches; cbn [fst files]; try reflexivity. apply lookup_insert_ne. congruence.
Qed.

End ExtractorRuns.

(** X17: a missing input.  When the input path does not exist the extractor
    prints the report and returns normally: nothing is read, no output file
    is created, whether or not an output path was given. *)
Theorem missing_input_is_reported (w : World) (p : path) (output_file : option path) :
  files w !! p = None ->
  extract_column_names p output_file w = (emit w [MsgFileNotFound p], Ok tt).
Proof.
  intros Hp. unfold extract_column_names. run. rewrite Hp.
  rewrite bool_decide_eq_false_2 by (intros [x Hx]; discriminate). run. reflexivity.
Qed.

Lemma missing_input_in_dangling_world :
  extract_column_names ["d"; "gone.csv"] (Some ["d"; "names.txt"]) dangling_world
  = (emit dangling_world [MsgFileNotFound ["d"; "gone.csv"]], Ok tt).
Proof.
  apply (missing_input_is_reported dangling_world ["d"; "gone.csv"] (Some ["d"; "names.txt"])).
  reflexivity.
Defined.

(** X18: the default manifest never replaces the input.  With no output path
    given, the manifest path [<stem>_columns.txt] differs from the input path
    for every input, so the input file holds after the run what it held
    before; and in every run, whatever the output path, no path other than
    the output is stored, changed or removed. *)
Theorem default_manifest_keeps_input (w : World) (p : path) (output_file : option path) :
  default_output p <> p
  /\ files (fst (extract_column_names p None w)) !! p = files w !! p
  /\ (forall q, q <> output_of p output_file ->
        files (fst (extract_column_names p output_file w)) !! q = files w !! q).
Proof.
  split; [apply default_output_differs|]. split.
  - apply extract_frame. intros Heq. apply (default_output_differs p). symmetry. exact Heq.
  - intros q Hq. apply extract_frame. exact Hq.
Qed.

Section LaterPasses.

Lemma string_append_assoc (a b c : string) : (a +:+ b) +:+ c = a +:+ (b +:+ c).
Proof.
  induction a as [|x a IH]; [reflexivity|].
  change (String x ((a +:+ b) +:+ c) = String x (a +:+ (b +:+ c))). rewrite IH. reflexivity.
Qed.

Lemma cleaned_name_matches (cs : bool) (p : path) :
  matches_ext cs ".csv" (name (cleaned_path p)) = true.
Proof.
  rewrite cleaned_path_name.
  change "_cleaned.csv" with ("_cleaned" +:+ ".csv"). rewrite <- string_append_assoc.
  apply csv_name_matches.
Qed.

Lemma in_csv_files_of (folder p : path) (recursive : bool) (w : World) :
  In p (csv_files_of folder recursive w) ->
  In p (listing w)
  /\ (if recursive then is_under folder p = true else parent p = folder).
Proof.
  unfold csv_files_of. intros Hin. apply List.filter_In in Hin as [Hl Hf]. split; [exact Hl|].
  destruct recursive.
  - apply andb_true_iff in Hf as [Hu _]. exact Hu.
  - apply andb_true_iff in Hf as [Hf _]. apply andb_true_iff in Hf as [Hf _].
    apply bool_decide_eq_true_1 in Hf. exact Hf.
Qed.

End LaterPasses.

(** X19: the fallback file is picked up by the next pass.  After the in-place
    pruner diverted a locked file's result to [<stem>_cleaned.csv], a pass
    over the same folder (recursive or not) that enumerated the original now
    enumerates both the original and the sibling: the sibling's name matches
    [*.csv] and it lies in the original's directory. *)
Theorem fallback_sibling_joins_next_pass (w : World) (folder p : path) (recursive : bool)
    (t : csv_text) (df : DataFrame) :
  In p (csv_files_of folder recursive w) ->
  files w !! p = Some (CsvFile t) ->
  read_csv t = Ok df ->
  qualifying (cols df) <> [] ->
  wfail w !! p = Some PermissionError ->
  wfail w !! cleaned_path p = None ->
  In p (csv_files_of folder recursive (fst (remove_null_columns p true w)))
  /\ In (cleaned_path p) (csv_files_of folder recursive (fst (remove_null_columns p true w))).
Proof.
  intros Hin Hp Hread Hq Hw Hc.
  destruct (read_csv_loaded t df Hread) as ((Hnd & _ & Hrect & _) & _).
  pose proof (cols_to_drop_spec df Hnd Hrect) as Hdrop.
  pose proof (drop_qualifying df Hnd) as Hdf'.
  destruct (qualifying (cols df)) as [|c l] eqn:Hql; [contradiction|].
  rewrite (run_fallback w p t df _ c l Hp Hread Hdrop Hdf' Hw Hc). cbn [fst].
  assert (Hsub : forall q, In q (listing w) ->
            In q (if bool_decide (cleaned_path p ∈ listing w)
                  then listing w else listing w ++ [cleaned_path p])).
  { intros q Hq'. destruct (bool_decide (cleaned_path p ∈ listing w)); [exact Hq'|].
    apply List.in_or_app. left. exact Hq'. }
  assert (Hnew : In (cleaned_path p)
                   (if bool_decide (cleaned_path p ∈ listing w)
                    then listing w else listing w ++ [cleaned_path p])).
  { destruct (bool_decide (cleaned_path p ∈ listing w)) eqn:Hb.
    - apply bool_decide_eq_true_1 in Hb. apply list_elem_of_In. exact Hb.
    - apply List.in_or_app. right. left. reflexivity. }
  destruct (in_csv_files_of folder p recursive w Hin) as [_ Hplace].
  unfold csv_files_of in *. unfold stored. cbn [listing case_sensitive].
  apply List.filter_In in Hin as [Hl Hf]. split.
  - apply List.filter_In. split; [apply Hsub; exact Hl|exact Hf].
  - apply List.filter_In. split; [exact Hnew|].
    destruct recursive.
    + apply andb_true_iff. split; [|apply cleaned_name_matches].
      unfold cleaned_path. apply is_under_sibling. exact Hplace.
    + apply andb_true_iff. split; [|apply cleaned_name_matches].
      apply andb_true_iff. split.
      * apply bool_decide_eq_true_2. rewrite cleaned_path_parent. exact Hplace.
      * apply bool_decide_eq_true_2. unfold cleaned_path, joinpath.
        intros Hnil. apply List.app_eq_nil in Hnil as [_ Hnil]. discriminate.
Qed.

Lemma fallback_sibling_of_locked_survey :
  In ["d"; "survey.csv"]
    (csv_files_of ["d"] false (fst (remove_null_columns ["d"; "survey.csv"] true locked_csv_world)))
  /\ In (cleaned_path ["d"; "survey.csv"])
       (csv_files_of ["d"] false
          (fst (remove_null_columns ["d"; "survey.csv"] true locked_csv_world))).
Proof.
  apply (fallback_sibling_joins_next_pass locked_csv_world ["d"] ["d"; "survey.csv"] false
           sparse_text
           (mkDataFrame 2 [("id", [Str "1"; Str "2"]); ("notes", [NaN; NaN])])).
  - vm_compute. left. reflexivity.
  - vm_compute. reflexivity.
  - vm_compute. reflexivity.
  - vm_compute. discriminate.
  - vm_compute. reflexivity.
  - vm_compute. reflexivity.
Defined.

Section EmptyDiscovery.

Lemma filter_nil_of_none {A : Type} (f : A -> bool) (l : list A) :
  (forall x, In x l -> f x = false) -> List.filter f l = [].
Proof.
  induction l as [|a l IH]; intros Hall; [reflexivity|].
  cbn [List.filter]. rewrite (Hall a (or_introl eq_refl)). apply IH.
  intros x Hx. apply Hall. right. exact Hx.
Qed.

(** A name matching either pattern of the Converter ends in [.dta] up to letter case. *)
Lemma matches_folded (cs : bool) (nm : string) :
  matches_ext cs ".dta" nm = true \/ matches_ext cs ".DTA" nm = true ->
  ends_with ".dta" (lower nm) = true.
Proof.
  intros [Hm|Hm]; destruct cs; unfold matches_ext in Hm.
  - exact (ends_with_lower ".dta" nm Hm).
  - exact Hm.
  - exact (ends_with_lower ".DTA" nm Hm).
  - exact Hm.
Qed.


End EmptyDiscovery.

(** X20: case folding doubles the batch.  Where path matching folds letter
    case, the patterns [*.dta] and [*.DTA] select the same entries, so the
    list of line 26 is that selection twice over; when it is not empty the
    run ends with a summary whose total, and whose successful and failed
    counts together, are twice the number of Stata files found. *)
Theorem case_folding_doubles_batch (w : World) (input_path : path)
    (output_folder : option path) :
  case_sensitive w = false ->
  folded_matches input_path w <> [] ->
  snd (Converter.discover input_path w)
  = Ok (folded_matches input_path w ++ folded_matches input_path w)
  /\ exists successful failed,
       List.last (stdout (fst (Converter.convert_dta_to_csv input_path output_folder w)))
         (MsgNoDtaFound input_path)
       = MsgConvertSummary successful failed (2 * length (folded_matches input_path w))
       /\ successful + failed = 2 * length (folded_matches input_path w).
Proof.
  intros Hcs Hne.
  assert (Hdisc : Converter.discover input_path w
                  = (w, Ok (folded_matches input_path w ++ folded_matches input_path w))).
  { unfold Converter.discover, rglob, bind, ret, folded_matches. rewrite Hcs. reflexivity. }
  split; [rewrite Hdisc; reflexivity|].
  unfold Converter.convert_dta_to_csv, bind. rewrite Hdisc.
  destruct (folded_matches input_path w ++ folded_matches input_path w) as [|p l] eqn:Hl.
  { apply List.app_eq_nil in Hl as [Hl _]. contradiction. }
  assert (Hlen : length (p :: l) = 2 * length (folded_matches input_path w)).
  { rewrite <- Hl, List.length_app. lia. }
  unfold print at 1. cbn [fst snd].
  set (w0 := mkWorld (files w) (listing w) (wfail w) (case_sensitive w)
               (stdout w ++ [MsgFoundDta (length (p :: l))])).
  destruct (convert_files_outcome input_path output_folder (p :: l) w0 (0, 0))
    as (w' & [s f] & Hrun & Hsum).
  rewrite Hrun. unfold print. cbn [fst snd stdout] in *.
  exists s, f. split; [|lia].
  rewrite List.last_last, Hlen. reflexivity.
Qed.

Lemma case_folding_doubles_one_file :
  snd (Converter.discover ["in"] folding_world)
  = Ok (folded_matches ["in"] folding_world ++ folded_matches ["in"] folding_world)
  /\ exists successful failed,
       List.last (stdout (fst (Converter.convert_dta_to_csv ["in"] None folding_world)))
         (MsgNoDtaFound ["in"])
       = MsgConvertSummary successful failed (2 * length (folded_matches ["in"] folding_world))
       /\ successful + failed = 2 * length (folded_matches ["in"] folding_world).
Proof.
  apply (case_folding_doubles_batch folding_world ["in"] None).
  - reflexivity.
  - vm_compute. discriminate.
Defined.

(** X21: nothing to convert.  When no entry below the input folder has a name
    ending in [.dta] in any letter case, the Converter prints the one
    ["No .dta files found"] line and returns: no file is read or stored, and
    no summary follows, under either path flavour and with or without an
    output folder. *)
Theorem no_stata_file_no_conversion (w : World) (input_path : path)
    (output_folder : option path) :
  (forall p, In p (listing w) -> is_under input_path p = true ->
     ends_with ".dta" (lower (name p)) = false) ->
  Converter.convert_dta_to_csv input_path output_folder w
  = (emit w [MsgNoDtaFound input_path], Ok tt).
Proof.
  intros Hnone.
  assert (Hnil : forall ext, ext = ".dta" \/ ext = ".DTA" ->
            List.filter (fun p => is_under input_path p
                                  && matches_ext (case_sensitive w) ext (name p))
              (listing w) = []).
  { intros ext Hext. apply filter_nil_of_none. intros p Hp.
    destruct (is_under input_path p) eqn:Hu; [|reflexivity].
    destruct (matches_ext (case_sensitive w) ext (name p)) eqn:Hm; [|reflexivity].
    assert (Hf : ends_with ".dta" (lower (name p)) = true).
    { apply (matches_folded (case_sensitive w)). destruct Hext; subst ext; auto. }
    rewrite (Hnone p Hp Hu) in Hf. discriminate. }
  unfold Converter.convert_dta_to_csv, Converter.discover, rglob, bind, ret.
  rewrite (Hnil ".dta" (or_introl eq_refl)), (Hnil ".DTA" (or_intror eq_refl)).
  reflexivity.
Qed.

Lemma no_stata_file_among_csv :
  Converter.convert_dta_to_csv ["d"] (Some ["out"]) survey_world
  = (emit survey_world [MsgNoDtaFound ["d"]], Ok tt).
Proof.
  apply (no_stata_file_no_conversion survey_world ["d"] (Some ["out"])).
  intros p Hp _. cbn in Hp. destruct Hp as [<-|[]]. vm_compute. reflexivity.
Defined.



(** X23: a failed extraction creates nothing.  Whenever [extract_column_names]
    raises (the reader rejects the file, e.g. a file with no header line, or
    the output path cannot be opened) it has printed the ["Reading"] line and
    nothing else, and no file has been stored, changed or listed: the header
    is read before the output is opened, and nothing in the function catches
    an exception. *)
Theorem failed_extraction_creates_nothing (w : World) (p : path) (output_file : option path)
    (e : exn) :
  snd (extract_column_names p output_file w) = Raise e ->
  fst (extract_column_names p output_file w) = emit w [MsgReadingColumns (name p)]
  /\ is_Some (files w !! p).
Proof.
  unfold extract_column_names, emit.
  destruct (files w !! p) as [c|] eqn:Hp.
  2: { run. rewrite Hp. rewrite bool_decide_eq_false_2 by (intros [x Hx]; discriminate).
       run. discriminate. }
  intros Hraise. split; [|eexists; reflexivity]. revert Hraise.
  file_exists Hp.
  destruct c as [t|df|s|]; run; try reflexivity.
  destruct (read_csv_header t) as [df|e1]; run; [|reflexivity].
  destruct (wfail w !! _); run; [reflexivity|discriminate].
Qed.

Lemma headerless_file_creates_nothing :
  fst (extract_column_names ["d"; "blank.csv"] None headerless_world)
  = emit headerless_world [MsgReadingColumns (name ["d"; "blank.csv"])]
  /\ is_Some (files headerless_world !! ["d"; "blank.csv"]).
Proof.
  apply (failed_extraction_creates_nothing headerless_world ["d"; "blank.csv"] None
           EmptyDataError).
  vm_compute. reflexivity.
Defined.
